(** * fpga_mining: register protocol of the SHA-256d miner core

    Shallow embedding of the two C programs that drive the memory-mapped
    SHA-256d accelerator,

      - [bitcoin_miner_sdk_xilinx.c]   (module [Sdk]),
      - [fpga_sha256d_miner_test.c]    (module [MinerTest]),

    and the properties of their register traffic.

    Modelling conventions.
    - A [uint32_t] / [u32] object is a [Z] in [0, 2^32); additions that the C
      code performs on addresses are wrapped explicitly with [wrap32].
    - The accelerator is an opaque environment: a [device] answers every
      32-bit load from the history of bus events so far and the address.
    - A C function with side effects is an [io] computation: given the
      history of events before the call it returns its result and the list
      of events it emitted, in program order.
    - [printf] / [xil_printf] only produce console text and are left out;
      the banner a polling loop prints when it leaves the loop is
      returned as a [JobOutcome] instead.
    - [while (1)] loops take a [fuel] bound on the number of loop bodies
      they may run and return [None] when the fuel is used up before a
      [break]. *)

From Stdlib Require Import ZArith List Lia Bool.
Import ListNotations.
Local Open Scope Z_scope.

(** ** Machine words *)

Definition wrap32 (z : Z) : Z := z mod 2 ^ 32.

(** Two's complement reading of a 32-bit [int]. *)
Definition int32 (z : Z) : Z := (z + 2 ^ 31) mod 2 ^ 32 - 2 ^ 31.

(** ** Bus events and the [io] monad *)

Inductive event : Type :=
| EvWrite (addr value : Z)      (* Xil_Out32(addr, value) *)
| EvRead (addr value : Z)       (* Xil_In32(addr) returned value *)
| EvSleep (usec : Z).           (* usleep(usec) *)

Definition trace : Type := list event.

(** The value the hardware returns for a load, given everything that
    happened on the bus before it. *)
Definition device : Type := trace -> Z -> Z.

Definition io (A : Type) : Type := trace -> A * trace.

Definition ret {A : Type} (a : A) : io A := fun _ => (a, []).

Definition bind {A B : Type} (m : io A) (f : A -> io B) : io B :=
  fun h =>
    let (a, e1) := m h in
    let (b, e2) := f a (h ++ e1) in
    (b, e1 ++ e2).

Declare Scope io_scope.
Delimit Scope io_scope with io.
Notation "x <- m ;; k" := (bind m (fun x => k))
  (at level 61, m at next level, right associativity) : io_scope.
Notation "m ;; k" := (bind m (fun _ => k))
  (at level 61, right associativity) : io_scope.
Local Open Scope io_scope.

Definition Xil_Out32 (addr value : Z) : io unit :=
  fun _ => (tt, [EvWrite addr value]).

Definition Xil_In32 (dev : device) (addr : Z) : io Z :=
  fun h => let v := wrap32 (dev h addr) in (v, [EvRead addr v]).

Definition usleep (usec : Z) : io unit :=
  fun _ => (tt, [EvSleep usec]).

(** [for (int i = lo; i < lo + n; i++) body(i)] *)
Fixpoint for_count (n : nat) (i : Z) (body : Z -> io unit) : io unit :=
  match n with
  | O => ret tt
  | S n' => body i ;; for_count n' (i + 1) body
  end.

Definition for_range (lo hi : Z) (body : Z -> io unit) : io unit :=
  for_count (Z.to_nat (hi - lo)) lo body.

(** Array cell assignment [a[i] = v] on an array held as a list; a store
    past the end of the list leaves it unchanged. *)
Fixpoint store (i : nat) (v : Z) (a : list Z) : list Z :=
  match a, i with
  | [], _ => []
  | _ :: a', O => v :: a'
  | x :: a', S i' => x :: store i' v a'
  end.

(** ** Outcomes of a polling session *)

Inductive JobOutcome : Type :=
| GoldenNonceFound (nonce : Z)
| RangeExhausted
| TimedOut.

(** What one pass through the body of a [while (1)] loop does to the loop:
    fall through to the next pass, or [break]. *)
Inductive loop_step : Type :=
| Continue (iteration : Z)
| Break (outcome : JobOutcome).

(** ** Observations on traces *)

Definition is_write_to (a : Z) (e : event) : bool :=
  match e with
  | EvWrite addr _ => addr =? a
  | _ => false
  end.

(** The addresses a trace stores to, in order. *)
Fixpoint write_addrs (t : trace) : list Z :=
  match t with
  | [] => []
  | EvWrite addr _ :: t' => addr :: write_addrs t'
  | _ :: t' => write_addrs t'
  end.

(** The addresses a trace loads from, in order. *)
Fixpoint read_addrs (t : trace) : list Z :=
  match t with
  | [] => []
  | EvRead addr _ :: t' => addr :: read_addrs t'
  | _ :: t' => read_addrs t'
  end.

(** No address occurs twice. *)
Fixpoint distinct (l : list Z) : bool :=
  match l with
  | [] => true
  | x :: l' => negb (existsb (Z.eqb x) l') && distinct l'
  end.

(** Level of a control register after a trace: the last value stored to
    it, if any. *)
Fixpoint last_write (a : Z) (t : trace) : option Z :=
  match t with
  | [] => None
  | e :: t' =>
      match last_write a t' with
      | Some v => Some v
      | None => match e with
                | EvWrite addr v => if addr =? a then Some v else None
                | _ => None
                end
      end
  end.

(** The writes that load one register bank: word [i] goes to
    [base + bank + 4*i]. *)
Definition bank_writes (base bank : Z) (ws : list Z) : trace :=
  map (fun i => EvWrite (base + (bank + 4 * Z.of_nat i)) (nth i ws 0))
      (seq 0 (length ws)).

(** ** bitcoin_miner_sdk_xilinx.c *)

Module Sdk.

Definition MINER_BASE_ADDR : Z := 0x43C00000.

Definition BANK_0_OFFSET : Z := 0x0000.
Definition BANK_1_OFFSET : Z := 0x0100.
Definition BANK_2_OFFSET : Z := 0x0200.
Definition BANK_3_OFFSET : Z := 0x0300.

Definition CTRL_SRST : Z := 0x0000.
Definition CTRL_START : Z := 0x0004.
Definition CTRL_CURRENT_HASH_REQ : Z := 0x0010.

Definition STATUS_FOUND : Z := 0x0000.
Definition STATUS_NOT_FOUND : Z := 0x0004.
Definition STATUS_GOLDEN_NONCE : Z := 0x0008.
Definition STATUS_CURRENT_NONCE : Z := 0x000C.

Record bitcoin_block_header_t : Type := {
  version : Z;
  prev_block : list Z;
  merkle_root : list Z;
  timestamp : Z;
  bits : Z;
  nonce : Z
}.

Record mining_params_t : Type := {
  mid_state : list Z;
  residual_data : list Z;
  target : list Z
}.

(** Fill [a[i] = v(i)] for [i = lo .. lo+n-1]. *)
Fixpoint fill (n : nat) (i : Z) (v : Z -> Z) (a : list Z) : list Z :=
  match n with
  | O => a
  | S n' => fill n' (i + 1) v (store (Z.to_nat i) (v i) a)
  end.

(** [process_block_header(header, params)]: [params0] is what [*params]
    holds before the call, the result what it holds afterwards. *)
Definition process_block_header (header : bitcoin_block_header_t)
    (params0 : mining_params_t) : mining_params_t :=
  let mid := fill 8 0 (fun i => wrap32 (0x12345678 + i)) (mid_state params0) in
  let res := store 0 (nonce header) (residual_data params0) in
  let res := store 1 0x80000000 res in
  let res := store 2 0x00000140 res in
  let exp := Z.land (Z.shiftr (bits header) 24) 0xFF in
  let mantissa := Z.land (bits header) 0xFFFFFF in
  let tgt := fill 8 0 (fun _ => 0xFFFFFFFF) (target params0) in
  let tgt := store 0 mantissa tgt in
  {| mid_state := mid; residual_data := res; target := tgt |}.

(** A [mining_params_t] local before anything is stored to it; every word
    is overwritten by [process_block_header] before it is read. *)
Definition params_uninit : mining_params_t :=
  {| mid_state := repeat 0 8; residual_data := repeat 0 3; target := repeat 0 8 |}.

Definition easy_target : list Z :=
  [0xFFFFFFFF; 0xFFFFFFFF; 0xFFFFFFFF; 0xFFFFFFFF;
   0xFFFFFFFF; 0xFFFFFFFF; 0xFFFFFFFF; 0x000000FF].

Definition real_target : list Z :=
  [0x00000000; 0x00000000; 0x00000000; 0x00000000;
   0x00000000; 0x00000000; 0x00000000; 0x00000000].

Section Driver.

Variable dev : device.

Definition write_register (offset value : Z) : io unit :=
  Xil_Out32 (wrap32 (MINER_BASE_ADDR + offset)) value.

Definition read_register (offset : Z) : io Z :=
  Xil_In32 dev (wrap32 (MINER_BASE_ADDR + offset)).

Definition write_mid_state (mid_state : list Z) : io unit :=
  for_range 0 8 (fun i =>
    write_register (BANK_1_OFFSET + i * 4) (nth (Z.to_nat i) mid_state 0)).

Definition write_residual_data (residual_data : list Z) : io unit :=
  for_range 0 3 (fun i =>
    write_register (BANK_2_OFFSET + i * 4) (nth (Z.to_nat i) residual_data 0)).

Definition write_target (target : list Z) : io unit :=
  for_range 0 8 (fun i =>
    write_register (BANK_3_OFFSET + i * 4) (nth (Z.to_nat i) target 0)).

Definition start_mining : io unit :=
  write_register CTRL_START 1.

Definition stop_mining : io unit :=
  write_register CTRL_SRST 1 ;;
  usleep 1000 ;;
  write_register CTRL_SRST 0.

Definition check_found : io Z :=
  found <- read_register STATUS_FOUND ;;
  ret (Z.land found 0x1).

Definition get_golden_nonce : io Z :=
  read_register STATUS_GOLDEN_NONCE.

Definition get_current_nonce : io Z :=
  write_register CTRL_CURRENT_HASH_REQ 1 ;;
  usleep 1000 ;;
  write_register CTRL_CURRENT_HASH_REQ 0 ;;
  read_register STATUS_CURRENT_NONCE.

Definition print_mining_status : io unit :=
  current_nonce <- get_current_nonce ;;
  found <- read_register STATUS_FOUND ;;
  not_found <- read_register STATUS_NOT_FOUND ;;
  if negb (found =? 0)
  then (golden_nonce <- get_golden_nonce ;; ret tt)
  else ret tt.

Definition set_test_difficulty : io unit :=
  write_target easy_target.

Definition set_real_difficulty : io unit :=
  write_target real_target.

(** One pass through the body of the [while (1)] loop of
    [mining_loop_test] ([period = 10], [cap = 1000]) and of
    [mining_loop_real] ([period = 100], [cap = 10000]); the two bodies
    differ in these two constants and in their console text only. *)
Definition poll_body (period cap iteration : Z) : io loop_step :=
  (if Z.rem iteration period =? 0 then print_mining_status else ret tt) ;;
  found <- check_found ;;
  if negb (found =? 0) then
    golden_nonce <- get_golden_nonce ;;
    stop_mining ;;
    ret (Break (GoldenNonceFound golden_nonce))
  else
    not_found <- read_register STATUS_NOT_FOUND ;;
    if negb (not_found =? 0) then
      stop_mining ;;
      ret (Break RangeExhausted)
    else
      usleep 100000 ;;
      let iteration := int32 (iteration + 1) in
      if iteration >? cap then
        stop_mining ;;
        ret (Break TimedOut)
      else
        ret (Continue iteration).

Fixpoint polling_loop (period cap : Z) (fuel : nat) (iteration : Z)
    : io (option JobOutcome) :=
  match fuel with
  | O => ret None
  | S fuel' =>
      s <- poll_body period cap iteration ;;
      match s with
      | Break outcome => ret (Some outcome)
      | Continue iteration' => polling_loop period cap fuel' iteration'
      end
  end.

(** [mining_loop_test] from the point where its local [header] is
    initialised. *)
Definition mining_loop_test_on (header : bitcoin_block_header_t) (fuel : nat)
    : io (option JobOutcome) :=
  let params := process_block_header header params_uninit in
  set_test_difficulty ;;
  write_mid_state (mid_state params) ;;
  write_residual_data (residual_data params) ;;
  start_mining ;;
  polling_loop 10 1000 fuel 0.

(** [now] is the value of [time(NULL)]. *)
Definition mining_loop_test (now : Z) (fuel : nat) : io (option JobOutcome) :=
  mining_loop_test_on
    {| version := 0x20000000; prev_block := repeat 0 32;
       merkle_root := repeat 0 32; timestamp := wrap32 now;
       bits := 0x1D00FFFF; nonce := 0 |} fuel.

Definition mining_loop_real_on (header : bitcoin_block_header_t) (fuel : nat)
    : io (option JobOutcome) :=
  let params := process_block_header header params_uninit in
  set_real_difficulty ;;
  write_mid_state (mid_state params) ;;
  write_residual_data (residual_data params) ;;
  start_mining ;;
  polling_loop 100 10000 fuel 0.

Definition mining_loop_real (now : Z) (fuel : nat) : io (option JobOutcome) :=
  mining_loop_real_on
    {| version := 0x20000000; prev_block := repeat 0 32;
       merkle_root := repeat 0 32; timestamp := wrap32 now;
       bits := 0x1703FFFC; nonce := 0 |} fuel.

(** [choice] is the integer that [scanf("%d", &choice)] stored. *)
Definition main (choice now : Z) (fuel : nat) : io (option JobOutcome) :=
  stop_mining ;;
  if choice =? 1 then mining_loop_test now fuel
  else if choice =? 2 then mining_loop_real now fuel
  else mining_loop_test now fuel.

End Driver.

End Sdk.

(** ** fpga_sha256d_miner_test.c *)

Module MinerTest.

Definition SHA256D_BASE : Z := 0x43C00000.

Definition REG_RESET : Z := 0x00.
Definition REG_START : Z := 0x04.
Definition REG_STATUS : Z := 0x08.
Definition REG_GOLDEN_NONCE : Z := 0x0C.
Definition REG_CUR_REQ : Z := 0x10.
Definition REG_CUR_NONCE : Z := 0x14.

Definition REG_MID (i : Z) : Z := 0x100 + i * 4.
Definition REG_RES (i : Z) : Z := 0x200 + i * 4.
Definition REG_TGT (i : Z) : Z := 0x300 + i * 4.

Definition mid : list Z :=
  [0x6a09e667; 0xbb67ae85; 0x3c6ef372; 0xa54ff53a;
   0x510e527f; 0x9b05688c; 0x1f83d9ab; 0x5be0cd19].

Definition res : list Z := [0x80000000; 0x00000000; 0x00000100].

Definition tgt : list Z :=
  [0x0000ffff; 0xffffffff; 0xffffffff; 0xffffffff;
   0xffffffff; 0xffffffff; 0xffffffff; 0xffffffff].

Section Driver.

Variable dev : device.

Definition write_reg (offset value : Z) : io unit :=
  Xil_Out32 (wrap32 (SHA256D_BASE + offset)) value.

Definition read_reg (offset : Z) : io Z :=
  Xil_In32 dev (wrap32 (SHA256D_BASE + offset)).

Definition write_block_header (mid res tgt : list Z) : io unit :=
  for_range 0 8 (fun i => write_reg (REG_MID i) (nth (Z.to_nat i) mid 0)) ;;
  for_range 0 3 (fun i => write_reg (REG_RES i) (nth (Z.to_nat i) res 0)) ;;
  for_range 0 8 (fun i => write_reg (REG_TGT i) (nth (Z.to_nat i) tgt 0)).

(** Step 2 of [main]: the reset pulse. *)
Definition main_reset : io unit :=
  write_reg REG_RESET 1 ;;
  usleep 1000 ;;
  write_reg REG_RESET 0.

(** One pass through the body of the [while (1)] loop of [main]; the loop
    keeps no counter, so [Continue] carries a dummy. *)
Definition main_poll_body : io loop_step :=
  status <- read_reg REG_STATUS ;;
  if negb (Z.land status 0x01 =? 0) then
    golden <- read_reg REG_GOLDEN_NONCE ;;
    ret (Break (GoldenNonceFound golden))
  else if negb (Z.land status 0x02 =? 0) then
    ret (Break RangeExhausted)
  else
    cur_nonce <- read_reg REG_CUR_NONCE ;;
    usleep 10000 ;;
    ret (Continue 0).

Fixpoint main_poll (fuel : nat) : io (option JobOutcome) :=
  match fuel with
  | O => ret None
  | S fuel' =>
      s <- main_poll_body ;;
      match s with
      | Break outcome => ret (Some outcome)
      | Continue _ => main_poll fuel'
      end
  end.

(** [init_platform] and [cleanup_platform] do not touch the core's
    registers. *)
Definition main (fuel : nat) : io (option JobOutcome) :=
  write_block_header mid res tgt ;;
  main_reset ;;
  write_reg REG_START 1 ;;
  main_poll fuel.

End Driver.

End MinerTest.

(** ** The register map as the specification tabulates it *)

Module SpecMap.

Definition RESET : Z := 0x000.
Definition START : Z := 0x004.
Definition STATUS : Z := 0x008.
Definition GOLDEN_NONCE : Z := 0x00C.
Definition CUR_REQ : Z := 0x010.
Definition CUR_NONCE : Z := 0x014.
Definition MID_BANK : Z := 0x100.
Definition RES_BANK : Z := 0x200.
Definition TGT_BANK : Z := 0x300.

(** Word [i < n] of the bank at [bank], seen from [base]. *)
Definition in_bank (base bank n a : Z) : bool :=
  (base + bank <=? a) && (a <? base + bank + 4 * n) && ((a - base) mod 4 =? 0).

(** An access that the table allows: a load from one of the three
    read-only registers, or a store to a control register or to a word of
    one of the three parameter banks. *)
Definition allowed (base : Z) (e : event) : bool :=
  match e with
  | EvRead a _ =>
      (a =? base + STATUS) || (a =? base + GOLDEN_NONCE) || (a =? base + CUR_NONCE)
  | EvWrite a _ =>
      (a =? base + RESET) || (a =? base + START) || (a =? base + CUR_REQ)
      || in_bank base MID_BANK 8 a || in_bank base RES_BANK 3 a
      || in_bank base TGT_BANK 8 a
  | EvSleep _ => true
  end.

End SpecMap.

(** ** Trace vocabulary of the theorems *)

(** The reset pulse on the control register at [a]. *)
Definition reset_pulse (a : Z) : trace :=
  [EvWrite a 1; EvSleep 1000; EvWrite a 0].

Definition count (p : event -> bool) (t : trace) : nat := length (filter p t).

Definition is_sleep_of (usec : Z) (e : event) : bool :=
  match e with
  | EvSleep u => u =? usec
  | _ => false
  end.

(** A store into the target bank [base + 0x300 .. base + 0x31C]. *)
Definition is_target_write (base : Z) (e : event) : bool :=
  match e with
  | EvWrite a _ => (base + 0x300 <=? a) && (a <? base + 0x320)
  | _ => false
  end.

(** The accesses [bitcoin_miner_sdk_xilinx.c] makes: loads from the four
    status registers at [0x000 .. 0x00C], stores to the three controls and
    to the three parameter banks. *)
Definition sdk_access (base : Z) (e : event) : bool :=
  match e with
  | EvRead a _ =>
      (a =? base + 0x000) || (a =? base + 0x004) || (a =? base + 0x008)
      || (a =? base + 0x00C)
  | EvWrite a _ =>
      (a =? base + 0x000) || (a =? base + 0x004) || (a =? base + 0x010)
      || SpecMap.in_bank base 0x100 8 a || SpecMap.in_bank base 0x200 3 a
      || SpecMap.in_bank base 0x300 8 a
  | EvSleep _ => true
  end.

(** The accesses of an SDK polling loop: status loads, the current-nonce
    request and the reset control. *)
Definition sdk_poll_access (base : Z) (e : event) : bool :=
  match e with
  | EvRead a _ =>
      (a =? base + 0x000) || (a =? base + 0x004) || (a =? base + 0x008)
      || (a =? base + 0x00C)
  | EvWrite a _ => (a =? base + 0x000) || (a =? base + 0x010)
  | EvSleep _ => true
  end.

(** The accesses of a status snapshot: as above without the reset
    control, and no 100 ms polling delay. *)
Definition sdk_status_access (base : Z) (e : event) : bool :=
  match e with
  | EvRead a _ =>
      (a =? base + 0x000) || (a =? base + 0x004) || (a =? base + 0x008)
      || (a =? base + 0x00C)
  | EvWrite a _ => a =? base + 0x010
  | EvSleep u => u =? 1000
  end.

(** The accesses of the polling loop of [fpga_sha256d_miner_test.c]:
    loads from the status, golden-nonce and current-nonce registers, the
    polling delay, and no store at all. *)
Definition test_poll_access (base : Z) (e : event) : bool :=
  match e with
  | EvRead a _ =>
      (a =? base + 0x008) || (a =? base + 0x00C) || (a =? base + 0x014)
  | EvWrite _ _ => false
  | EvSleep _ => true
  end.

(** A load from [a]. *)
Definition is_read_from (a : Z) (e : event) : bool :=
  match e with
  | EvRead addr _ => addr =? a
  | _ => false
  end.

(** A store of [v] to [a]. *)
Definition is_write_of (a v : Z) (e : event) : bool :=
  match e with
  | EvWrite addr value => (addr =? a) && (value =? v)
  | _ => false
  end.

(** Total time asked of [usleep], in microseconds. *)
Fixpoint slept (t : trace) : Z :=
  match t with
  | [] => 0
  | EvSleep u :: t' => u + slept t'
  | _ :: t' => slept t'
  end.

(** Among [n] consecutive passes, the first with counter value
    [iteration], the number of those whose counter is a multiple of
    [period]. *)
Fixpoint due (period iteration : Z) (n : nat) : nat :=
  match n with
  | O => O
  | S n' =>
      Nat.add (if Z.rem iteration period =? 0 then 1%nat else 0%nat)
              (due period (iteration + 1) n')
  end.

(** Passes an SDK polling run that has ended went through: one per
    polling delay, and one more unless the last pass timed out after its
    delay. *)
Definition passes_of (o : JobOutcome) (evs : trace) : nat :=
  (count (is_sleep_of 100000) evs
   + match o with TimedOut => 0 | _ => 1 end)%nat.

(** A 32-bit word. *)
Definition is_u32 (w : Z) : Prop := 0 <= w < 2 ^ 32.

(** Every event a computation emits satisfies [p], whatever happened
    before. *)
Definition emits {A : Type} (p : event -> bool) (m : io A) : Prop :=
  forall h, forallb p (snd (m h)) = true.

(** Devices used to exercise the programs. *)
Definition silent_device : device := fun _ _ => 0.
Definition eager_device : device := fun _ _ => 1.

(** A device whose status words have bit 0 clear and another bit set. *)
Definition exhausted_device : device := fun _ _ => 2.

(** A device whose found register (as the SDK driver addresses it) reads
    1 once [n] polling delays of 100 ms have gone by, and whose
    golden-nonce register reads [0xCAFE]. *)
Definition late_device (n : nat) : device :=
  fun h a =>
    if a =? 0x43C00000 then
      if (n <=? count (is_sleep_of 100000) h)%nat then 1 else 0
    else if a =? 0x43C00008 then 0xCAFE
    else 0.

(** A device whose status word (as the test program addresses it) reads
    2 once [n] polling delays of 10 ms have gone by, and 0 before. *)
Definition late_status_device (n : nat) : device :=
  fun h a =>
    if a =? 0x43C00008 then
      if (n <=? count (is_sleep_of 10000) h)%nat then 2 else 0
    else 0.

(** A header that shares its nonce and the low three bytes of its
    difficulty bits with [test_header] below, and nothing else. *)
Definition other_header : Sdk.bitcoin_block_header_t :=
  {| Sdk.version := 1; Sdk.prev_block := repeat 0xAB 32;
     Sdk.merkle_root := repeat 0xCD 32; Sdk.timestamp := 0x5F5E100;
     Sdk.bits := 0x1700FFFF; Sdk.nonce := 0 |}.

(** Left-over contents of a [mining_params_t]. *)
Definition stale_params : Sdk.mining_params_t :=
  {| Sdk.mid_state := [1; 2; 3; 4; 5; 6; 7; 8];
     Sdk.residual_data := [9; 10; 11];
     Sdk.target := [12; 13; 14; 15; 16; 17; 18; 19] |}.

(** The header [mining_loop_test] builds at time [0]. *)
Definition test_header : Sdk.bitcoin_block_header_t :=
  {| Sdk.version := 0x20000000; Sdk.prev_block := repeat 0 32;
     Sdk.merkle_root := repeat 0 32; Sdk.timestamp := 0;
     Sdk.bits := 0x1D00FFFF; Sdk.nonce := 0 |}.

(** * Properties *)

(** ** The [io] monad *)

Lemma bind_eq {A B : Type} (m : io A) (f : A -> io B) h a e1 b e2 :
  m h = (a, e1) -> f a (h ++ e1) = (b, e2) -> bind m f h = (b, e1 ++ e2).
Proof. unfold bind; intros -> ->; reflexivity. Qed.

Lemma bind_inv {A B : Type} (m : io A) (f : A -> io B) h b evs :
  bind m f h = (b, evs) ->
  exists a e1 e2, m h = (a, e1) /\ f a (h ++ e1) = (b, e2) /\ evs = e1 ++ e2.
Proof.
  unfold bind. destruct (m h) as [a e1].
  destruct (f a (h ++ e1)) as [b' e2] eqn:Ef.
  intros E; injection E as <- <-. exists a, e1, e2. auto.
Qed.

Lemma ret_inv {A : Type} (a b : A) h evs :
  ret a h = (b, evs) -> b = a /\ evs = [].
Proof. unfold ret; intros E; inversion E; auto. Qed.

Lemma Xil_Out32_inv addr value h u evs :
  Xil_Out32 addr value h = (u, evs) -> evs = [EvWrite addr value].
Proof. unfold Xil_Out32; intros E; inversion E; auto. Qed.

Lemma Xil_In32_inv dev addr h v evs :
  Xil_In32 dev addr h = (v, evs) ->
  v = wrap32 (dev h addr) /\ evs = [EvRead addr v].
Proof. unfold Xil_In32; intros E; inversion E; auto. Qed.

Lemma usleep_inv usec h u evs :
  usleep usec h = (u, evs) -> evs = [EvSleep usec].
Proof. unfold usleep; intros E; inversion E; auto. Qed.

Lemma emits_ret {A : Type} p (a : A) : emits p (ret a).
Proof. intros h; reflexivity. Qed.

Lemma emits_bind {A B : Type} p (m : io A) (f : A -> io B) :
  emits p m -> (forall a, emits p (f a)) -> emits p (bind m f).
Proof.
  intros Hm Hf h. unfold bind.
  specialize (Hm h). destruct (m h) as [a e1].
  specialize (Hf a (h ++ e1)). destruct (f a (h ++ e1)) as [b e2].
  simpl in *. rewrite forallb_app, Hm, Hf. reflexivity.
Qed.

Lemma emits_Xil_Out32 p addr value :
  p (EvWrite addr value) = true -> emits p (Xil_Out32 addr value).
Proof. intros H h; simpl; rewrite H; reflexivity. Qed.

Lemma emits_Xil_In32 p dev addr :
  (forall v, p (EvRead addr v) = true) -> emits p (Xil_In32 dev addr).
Proof. intros H h; simpl; rewrite H; reflexivity. Qed.

Lemma emits_usleep p usec :
  p (EvSleep usec) = true -> emits p (usleep usec).
Proof. intros H h; simpl; rewrite H; reflexivity. Qed.

Lemma emits_if {A : Type} p (c : bool) (m1 m2 : io A) :
  emits p m1 -> emits p m2 -> emits p (if c then m1 else m2).
Proof. destruct c; auto. Qed.

Lemma emits_weaken {A : Type} (p q : event -> bool) (m : io A) :
  (forall e, p e = true -> q e = true) -> emits p m -> emits q m.
Proof.
  intros Hpq Hm h. specialize (Hm h).
  rewrite forallb_forall in *. auto.
Qed.

(** ** Counting and the last store *)

Lemma count_app p t1 t2 : count p (t1 ++ t2) = (count p t1 + count p t2)%nat.
Proof. unfold count. rewrite filter_app, length_app. reflexivity. Qed.

Lemma count_none p q t :
  (forall e, q e = true -> p e = false) -> forallb q t = true -> count p t = 0%nat.
Proof.
  intros Hqp. unfold count. induction t as [|e t IH]; simpl; intros H.
  - reflexivity.
  - apply andb_true_iff in H as [He Ht]. rewrite (Hqp e He). auto.
Qed.

Lemma last_write_app a t1 t2 :
  last_write a (t1 ++ t2) =
  match last_write a t2 with
  | Some v => Some v
  | None => last_write a t1
  end.
Proof.
  induction t1 as [|e t1 IH]; simpl.
  - destruct (last_write a t2); reflexivity.
  - rewrite IH. destruct (last_write a t2); reflexivity.
Qed.

(** ** Arrays of known length *)

Ltac explode l :=
  repeat match goal with
         | H : length l = _ |- _ =>
             destruct l as [|? l]; simpl in H;
             [ try discriminate H | try discriminate H; apply eq_add_S in H ]
         end.

Lemma distinct_NoDup l : distinct l = true -> NoDup l.
Proof.
  induction l as [|x l IH]; simpl; intros H.
  - constructor.
  - apply andb_true_iff in H as [Hx Hl]. constructor; auto.
    intros Hin. apply negb_true_iff in Hx.
    assert (E : existsb (Z.eqb x) l = true).
    { apply existsb_exists. exists x. split; [assumption | apply Z.eqb_refl]. }
    congruence.
Qed.

(** ** Parameter loading *)

Lemma write_mid_state_trace (ws : list Z) (h : trace) :
  length ws = 8%nat ->
  snd (Sdk.write_mid_state ws h) = bank_writes 0x43C00000 0x100 ws.
Proof. intros H; explode ws; reflexivity. Qed.

Lemma write_residual_data_trace (ws : list Z) (h : trace) :
  length ws = 3%nat ->
  snd (Sdk.write_residual_data ws h) = bank_writes 0x43C00000 0x200 ws.
Proof. intros H; explode ws; reflexivity. Qed.

Lemma write_target_trace (ws : list Z) (h : trace) :
  length ws = 8%nat ->
  snd (Sdk.write_target ws h) = bank_writes 0x43C00000 0x300 ws.
Proof. intros H; explode ws; reflexivity. Qed.

(** ** Reset and the current-nonce handshake *)

(** C5. [stop_mining] (the reset of the SDK driver, also its stop) and the
    reset step of the test program store 1 to the reset control, sleep
    1000 microseconds, and store 0 to it; whatever happened before, the
    last value stored to the reset control when they return is 0. *)
Theorem reset_pulse_asserts_holds_deasserts (h : trace) :
  Sdk.stop_mining h
    = (tt, [EvWrite 0x43C00000 1; EvSleep 1000; EvWrite 0x43C00000 0])
  /\ last_write 0x43C00000 (h ++ snd (Sdk.stop_mining h)) = Some 0
  /\ MinerTest.main_reset h
    = (tt, [EvWrite 0x43C00000 1; EvSleep 1000; EvWrite 0x43C00000 0])
  /\ last_write 0x43C00000 (h ++ snd (MinerTest.main_reset h)) = Some 0.
Proof.
  repeat split; rewrite last_write_app; reflexivity.
Qed.

(** C6. [get_current_nonce] stores 1 to the current-nonce request control,
    sleeps 1000 microseconds, stores 0 to the control, then loads the
    current-nonce status register and returns the loaded value. *)
Theorem get_current_nonce_handshake (dev : device) (h : trace) :
  let request := [EvWrite 0x43C00010 1; EvSleep 1000; EvWrite 0x43C00010 0] in
  let v := wrap32 (dev (h ++ request) (0x43C00000 + Sdk.STATUS_CURRENT_NONCE)) in
  Sdk.get_current_nonce dev h
    = (v, request ++ [EvRead (0x43C00000 + Sdk.STATUS_CURRENT_NONCE) v]).
Proof.
  cbv zeta. unfold Sdk.get_current_nonce.
  erewrite bind_eq; [| reflexivity |].
  2:{ erewrite bind_eq; [| reflexivity |].
      2:{ erewrite bind_eq; [| reflexivity | reflexivity]. reflexivity. }
      reflexivity. }
  simpl. rewrite <- !app_assoc. reflexivity.
Qed.

(** ** One pass of the SDK polling loop *)

Lemma bind_fst_snd {A B : Type} (m : io A) (f : A -> io B) h :
  bind m f h
  = (fst (f (fst (m h)) (h ++ snd (m h))),
     snd (m h) ++ snd (f (fst (m h)) (h ++ snd (m h)))).
Proof.
  unfold bind. destruct (m h) as [a e1]; simpl.
  destruct (f a (h ++ e1)) as [b e2]; reflexivity.
Qed.

Ltac emits_tac :=
  repeat lazymatch goal with
         | |- emits _ (ret _) => apply emits_ret
         | |- emits _ (usleep _) => apply emits_usleep; reflexivity
         | |- emits _ (Xil_Out32 _ _) => apply emits_Xil_Out32; reflexivity
         | |- emits _ (Xil_In32 _ _) => apply emits_Xil_In32; intros; reflexivity
         | |- emits _ (if _ then _ else _) => apply emits_if
         | |- emits _ (bind _ _) => apply emits_bind; [| intros ? ]
         end.

Lemma print_mining_status_emits dev :
  emits (sdk_status_access 0x43C00000) (Sdk.print_mining_status dev).
Proof.
  unfold Sdk.print_mining_status, Sdk.get_current_nonce, Sdk.get_golden_nonce,
    Sdk.read_register, Sdk.write_register.
  emits_tac.
Qed.

Lemma stop_mining_trace h : Sdk.stop_mining h = (tt, reset_pulse 0x43C00000).
Proof. reflexivity. Qed.

(** What one pass does, case by case.  [pre] is the status snapshot when
    one is due, [f] the word loaded from the found register by
    [check_found], [g] and [nf] the words loaded after it. *)
Lemma poll_body_spec dev period cap iteration h :
  let pre := snd ((if Z.rem iteration period =? 0
                   then Sdk.print_mining_status dev else ret tt) h) in
  let f := wrap32 (dev (h ++ pre) 0x43C00000) in
  let h1 := (h ++ pre) ++ [EvRead 0x43C00000 f] in
  Sdk.poll_body dev period cap iteration h =
  if negb (Z.land f 1 =? 0) then
    let g := wrap32 (dev h1 0x43C00008) in
    (Break (GoldenNonceFound g),
     pre ++ [EvRead 0x43C00000 f; EvRead 0x43C00008 g] ++ reset_pulse 0x43C00000)
  else
    let nf := wrap32 (dev h1 0x43C00004) in
    if negb (nf =? 0) then
      (Break RangeExhausted,
       pre ++ [EvRead 0x43C00000 f; EvRead 0x43C00004 nf]
           ++ reset_pulse 0x43C00000)
    else if int32 (iteration + 1) >? cap then
      (Break TimedOut,
       pre ++ [EvRead 0x43C00000 f; EvRead 0x43C00004 nf; EvSleep 100000]
           ++ reset_pulse 0x43C00000)
    else
      (Continue (int32 (iteration + 1)),
       pre ++ [EvRead 0x43C00000 f; EvRead 0x43C00004 nf; EvSleep 100000]).
Proof.
  cbv zeta. unfold Sdk.poll_body.
  rewrite bind_fst_snd.
  set (pre := snd ((if Z.rem iteration period =? 0
                    then Sdk.print_mining_status dev else ret tt) h)).
  generalize (h ++ pre). intros h0.
  unfold Sdk.check_found, Sdk.get_golden_nonce, Sdk.read_register.
  change (wrap32 (Sdk.MINER_BASE_ADDR + Sdk.STATUS_FOUND)) with 0x43C00000.
  change (wrap32 (Sdk.MINER_BASE_ADDR + Sdk.STATUS_NOT_FOUND)) with 0x43C00004.
  change (wrap32 (Sdk.MINER_BASE_ADDR + Sdk.STATUS_GOLDEN_NONCE)) with 0x43C00008.
  set (f := wrap32 (dev h0 0x43C00000)).
  set (g := wrap32 (dev (h0 ++ [EvRead 0x43C00000 f]) 0x43C00008)).
  set (nf := wrap32 (dev (h0 ++ [EvRead 0x43C00000 f]) 0x43C00004)).
  cbv [bind Xil_In32 ret usleep Sdk.stop_mining Sdk.write_register Xil_Out32].
  cbn [app]. fold f.
  destruct (Z.land f 1 =? 0); cbn [negb]; cbv beta iota; fold g nf.
  - destruct (nf =? 0); cbn [negb]; cbv beta iota.
    + destruct (int32 (iteration + 1) >? cap); reflexivity.
    + reflexivity.
  - reflexivity.
Qed.

(** ** The SDK polling loop *)

Lemma int32_small z : - 2 ^ 31 <= z < 2 ^ 31 -> int32 z = z.
Proof. intros H. unfold int32. rewrite Z.mod_small; lia. Qed.

Lemma polling_loop_step dev period cap fuel iteration h :
  Sdk.polling_loop dev period cap (S fuel) iteration h =
  match fst (Sdk.poll_body dev period cap iteration h) with
  | Break o => (Some o, snd (Sdk.poll_body dev period cap iteration h))
  | Continue iteration' =>
      let e1 := snd (Sdk.poll_body dev period cap iteration h) in
      let r := Sdk.polling_loop dev period cap fuel iteration' (h ++ e1) in
      (fst r, e1 ++ snd r)
  end.
Proof.
  simpl. rewrite bind_fst_snd.
  destruct (Sdk.poll_body dev period cap iteration h) as [[it'|o] e1]; simpl.
  - reflexivity.
  - rewrite app_nil_r. reflexivity.
Qed.

Lemma status_snapshot_emits dev (c : bool) h :
  forallb (sdk_status_access 0x43C00000)
          (snd ((if c then Sdk.print_mining_status dev else ret tt) h)) = true.
Proof.
  apply (emits_if _ c); [apply print_mining_status_emits | apply emits_ret].
Qed.

Lemma status_no_reset e :
  sdk_status_access 0x43C00000 e = true -> is_write_to 0x43C00000 e = false.
Proof.
  destruct e as [a v|a v|u]; simpl; try reflexivity.
  intros H. apply Z.eqb_eq in H. subst a. reflexivity.
Qed.

Lemma status_no_delay e :
  sdk_status_access 0x43C00000 e = true -> is_sleep_of 100000 e = false.
Proof.
  destruct e as [a v|a v|u]; simpl; try reflexivity.
  intros H. apply Z.eqb_eq in H. subst u. reflexivity.
Qed.

(** Split a run of [S fuel] passes on what the first pass does. *)
Ltac first_pass dev period cap iteration h :=
  rewrite polling_loop_step;
  let E := fresh "E" in
  pose proof (poll_body_spec dev period cap iteration h) as E;
  cbv zeta in E; rewrite E; clear E;
  let P := fresh "Hpre" in
  pose proof (status_snapshot_emits dev (Z.rem iteration period =? 0) h) as P;
  set (pre := snd ((if Z.rem iteration period =? 0
                    then Sdk.print_mining_status dev else ret tt) h)) in *;
  set (f := wrap32 (dev (h ++ pre) 0x43C00000));
  set (g := wrap32 (dev ((h ++ pre) ++ [EvRead 0x43C00000 f]) 0x43C00008));
  set (nf := wrap32 (dev ((h ++ pre) ++ [EvRead 0x43C00000 f]) 0x43C00004));
  destruct (Z.land f 1 =? 0) eqn:Hfound; cbn [negb];
  [ destruct (nf =? 0) eqn:Hnotfound; cbn [negb];
    [ destruct (int32 (iteration + 1) >? cap) eqn:Hover | ] | ];
  cbn [fst snd].

(** Within [cap + 1] passes the loop has left through one of its three
    [break]s. *)
Lemma polling_loop_terminates dev period cap :
  cap < 2 ^ 31 - 1 ->
  forall fuel iteration h,
    0 <= iteration <= cap -> cap - iteration < Z.of_nat fuel ->
    exists o evs, Sdk.polling_loop dev period cap fuel iteration h = (Some o, evs).
Proof.
  intros Hcap. induction fuel as [|fuel IH]; intros iteration h Hit Hfuel.
  - lia.
  - first_pass dev period cap iteration h; eauto.
    rewrite int32_small in * by lia.
    destruct (IH (iteration + 1)
                 (h ++ pre ++ [EvRead 0x43C00000 f; EvRead 0x43C00004 nf;
                               EvSleep 100000]))
      as (o & evs & E); [lia | lia |].
    rewrite E. simpl. eauto.
Qed.

(** More fuel does not change the result of a loop that has ended. *)
Lemma polling_loop_fuel_mono dev period cap fuel k :
  forall iteration h o evs,
    Sdk.polling_loop dev period cap fuel iteration h = (Some o, evs) ->
    Sdk.polling_loop dev period cap (fuel + k) iteration h = (Some o, evs).
Proof.
  induction fuel as [|fuel IH]; intros iteration h o evs.
  - simpl. unfold ret. discriminate.
  - change (S fuel + k)%nat with (S (fuel + k)).
    rewrite !polling_loop_step.
    destruct (fst (Sdk.poll_body dev period cap iteration h)) as [it'|o']; auto.
    cbv zeta.
    destruct (Sdk.polling_loop dev period cap fuel it' _) as [r e2] eqn:E.
    simpl. intros H. injection H as -> <-.
    rewrite (IH _ _ _ _ E). reflexivity.
Qed.

(** A loop that has ended ended with the reset pulse of [stop_mining],
    and stored nothing to the reset control before it. *)
Lemma polling_loop_stops_once dev period cap :
  forall fuel iteration h o evs,
    Sdk.polling_loop dev period cap fuel iteration h = (Some o, evs) ->
    exists pre,
      evs = pre ++ reset_pulse 0x43C00000
      /\ count (is_write_to 0x43C00000) pre = 0%nat.
Proof.
  induction fuel as [|fuel IH]; intros iteration h o evs.
  - simpl. unfold ret. discriminate.
  - first_pass dev period cap iteration h; intros H.
    + injection H as <- <-.
      exists (pre ++ [EvRead 0x43C00000 f; EvRead 0x43C00004 nf; EvSleep 100000]).
      rewrite <- app_assoc. split; [reflexivity|].
      rewrite count_app, (count_none _ _ _ status_no_reset Hpre). reflexivity.
    + destruct (Sdk.polling_loop dev period cap fuel _ _) as [r e2] eqn:E.
      simpl in H. injection H as -> <-.
      destruct (IH _ _ _ _ E) as (pre2 & -> & Hc).
      exists ((pre ++ [EvRead 0x43C00000 f; EvRead 0x43C00004 nf;
                       EvSleep 100000]) ++ pre2).
      rewrite <- !app_assoc. split; [reflexivity|].
      rewrite !count_app, (count_none _ _ _ status_no_reset Hpre), Hc.
      reflexivity.
    + injection H as <- <-.
      exists (pre ++ [EvRead 0x43C00000 f; EvRead 0x43C00004 nf]).
      rewrite <- app_assoc. split; [reflexivity|].
      rewrite count_app, (count_none _ _ _ status_no_reset Hpre). reflexivity.
    + injection H as <- <-.
      exists (pre ++ [EvRead 0x43C00000 f; EvRead 0x43C00008 g]).
      rewrite <- app_assoc. split; [reflexivity|].
      rewrite count_app, (count_none _ _ _ status_no_reset Hpre). reflexivity.
Qed.

(** Evaluate [count] on the explicit parts of a trace. *)
Ltac count_eval :=
  repeat match goal with
         | |- context [count ?p (?x :: ?l)] =>
             let n := eval cbv in (count p (x :: l)) in
             change (count p (x :: l)) with n
         | |- context [count ?p (reset_pulse ?a)] =>
             let n := eval cbv in (count p (reset_pulse a)) in
             change (count p (reset_pulse a)) with n
         end.

(** The 100 ms delays of a loop that has ended: [cap + 1] less the start
    value of the counter when it timed out, and at most [cap] less the
    start value otherwise; a timed-out loop ends with the delay followed
    by the reset pulse. *)
Lemma polling_loop_delays dev period cap :
  cap < 2 ^ 31 - 1 ->
  forall fuel iteration h o evs,
    0 <= iteration <= cap ->
    Sdk.polling_loop dev period cap fuel iteration h = (Some o, evs) ->
    match o with
    | TimedOut =>
        Z.of_nat (count (is_sleep_of 100000) evs) + iteration = cap + 1
        /\ exists pre, evs = pre ++ EvSleep 100000 :: reset_pulse 0x43C00000
    | _ => Z.of_nat (count (is_sleep_of 100000) evs) + iteration <= cap
    end.
Proof.
  intros Hcap. induction fuel as [|fuel IH]; intros iteration h o evs Hit.
  - simpl. unfold ret. discriminate.
  - first_pass dev period cap iteration h; intros H.
    + injection H as <- <-.
      rewrite int32_small in Hover by lia. apply Z.gtb_lt in Hover.
      rewrite !count_app, (count_none _ _ _ status_no_delay Hpre).
      count_eval. split; [lia|].
      exists (pre ++ [EvRead 0x43C00000 f; EvRead 0x43C00004 nf]).
      rewrite <- app_assoc. reflexivity.
    + destruct (Sdk.polling_loop dev period cap fuel _ _) as [r e2] eqn:E.
      simpl in H. injection H as -> <-.
      rewrite int32_small in * by lia.
      assert (Hle : iteration + 1 <= cap).
      { rewrite Z.gtb_ltb in Hover. apply Z.ltb_ge in Hover. exact Hover. }
      specialize (IH _ _ _ _ (conj (ltac:(lia) : 0 <= iteration + 1) Hle) E).
      rewrite !count_app, (count_none _ _ _ status_no_delay Hpre).
      count_eval.
      destruct o.
      * lia.
      * lia.
      * destruct IH as (Hn & pre2 & ->). split; [lia|].
        exists ((pre ++ [EvRead 0x43C00000 f; EvRead 0x43C00004 nf;
                         EvSleep 100000]) ++ pre2).
        rewrite <- !app_assoc. reflexivity.
    + injection H as <- <-.
      rewrite !count_app, (count_none _ _ _ status_no_delay Hpre).
      count_eval. lia.
    + injection H as <- <-.
      rewrite !count_app, (count_none _ _ _ status_no_delay Hpre).
      count_eval. lia.
Qed.

(** A loop that reports a golden nonce loaded it from the golden-nonce
    register right after a load of the found register whose bit 0 was
    set, and a loop that reports exhaustion loaded the not-found register
    right after a load of the found register whose bit 0 was clear. *)
Lemma polling_loop_found_first dev period cap :
  forall fuel iteration h o evs,
    Sdk.polling_loop dev period cap fuel iteration h = (Some o, evs) ->
    match o with
    | GoldenNonceFound g =>
        exists pre f,
          evs = pre ++ [EvRead 0x43C00000 f; EvRead 0x43C00008 g]
                    ++ reset_pulse 0x43C00000
          /\ Z.land f 1 <> 0
          /\ g = wrap32 (dev (h ++ pre ++ [EvRead 0x43C00000 f]) 0x43C00008)
    | RangeExhausted =>
        exists pre f nf,
          evs = pre ++ [EvRead 0x43C00000 f; EvRead 0x43C00004 nf]
                    ++ reset_pulse 0x43C00000
          /\ Z.land f 1 = 0 /\ nf <> 0
    | TimedOut => True
    end.
Proof.
  induction fuel as [|fuel IH]; intros iteration h o evs.
  - simpl. unfold ret. discriminate.
  - first_pass dev period cap iteration h; intros H.
    + injection H as <- <-. exact I.
    + destruct (Sdk.polling_loop dev period cap fuel _ _) as [r e2] eqn:E.
      simpl in H. injection H as -> <-.
      specialize (IH _ _ _ _ E).
      set (e1 := pre ++ [EvRead 0x43C00000 f; EvRead 0x43C00004 nf;
                         EvSleep 100000]) in *.
      destruct o as [g'| |].
      * destruct IH as (pre2 & f2 & -> & Hb & Hg).
        exists (e1 ++ pre2), f2. rewrite <- !app_assoc.
        split; [reflexivity|]. split; [assumption|].
        rewrite <- app_assoc in Hg. exact Hg.
      * destruct IH as (pre2 & f2 & nf2 & -> & Hb & Hn).
        exists (e1 ++ pre2), f2, nf2. rewrite <- !app_assoc. auto.
      * exact I.
    + injection H as <- <-. exists pre, f, nf.
      apply Z.eqb_eq in Hfound. apply Z.eqb_neq in Hnotfound. auto.
    + injection H as <- <-. exists pre, f.
      apply Z.eqb_neq in Hfound.
      split; [reflexivity|]. split; [assumption|].
      unfold g. rewrite <- app_assoc. reflexivity.
Qed.

(** ** The polling loop of the test program *)

Lemma main_poll_body_spec dev h :
  let s := wrap32 (dev h 0x43C00008) in
  let h1 := h ++ [EvRead 0x43C00008 s] in
  MinerTest.main_poll_body dev h =
  if negb (Z.land s 1 =? 0) then
    let g := wrap32 (dev h1 0x43C0000C) in
    (Break (GoldenNonceFound g), [EvRead 0x43C00008 s; EvRead 0x43C0000C g])
  else if negb (Z.land s 2 =? 0) then
    (Break RangeExhausted, [EvRead 0x43C00008 s])
  else
    let c := wrap32 (dev h1 0x43C00014) in
    (Continue 0, [EvRead 0x43C00008 s; EvRead 0x43C00014 c; EvSleep 10000]).
Proof.
  cbv zeta. unfold MinerTest.main_poll_body, MinerTest.read_reg.
  change (wrap32 (MinerTest.SHA256D_BASE + MinerTest.REG_STATUS)) with 0x43C00008.
  change (wrap32 (MinerTest.SHA256D_BASE + MinerTest.REG_GOLDEN_NONCE))
    with 0x43C0000C.
  change (wrap32 (MinerTest.SHA256D_BASE + MinerTest.REG_CUR_NONCE))
    with 0x43C00014.
  cbv [bind Xil_In32 usleep ret]. cbn [app].
  change (Z.land (wrap32 (dev h 0x43C00008)) 0x01)
    with (Z.land (wrap32 (dev h 0x43C00008)) 1).
  destruct (Z.land (wrap32 (dev h 0x43C00008)) 1 =? 0); cbn [negb].
  - change (Z.land (wrap32 (dev h 0x43C00008)) 0x02)
      with (Z.land (wrap32 (dev h 0x43C00008)) 2).
    destruct (Z.land (wrap32 (dev h 0x43C00008)) 2 =? 0); reflexivity.
  - reflexivity.
Qed.

Lemma main_poll_step dev fuel h :
  MinerTest.main_poll dev (S fuel) h =
  match fst (MinerTest.main_poll_body dev h) with
  | Break o => (Some o, snd (MinerTest.main_poll_body dev h))
  | Continue _ =>
      let e1 := snd (MinerTest.main_poll_body dev h) in
      let r := MinerTest.main_poll dev fuel (h ++ e1) in
      (fst r, e1 ++ snd r)
  end.
Proof.
  simpl. rewrite bind_fst_snd.
  destruct (MinerTest.main_poll_body dev h) as [[it'|o] e1]; simpl.
  - reflexivity.
  - rewrite app_nil_r. reflexivity.
Qed.

(** While the status word stays 0 the loop of the test program runs on:
    no amount of fuel makes it return. *)
Lemma main_poll_silent_runs_on fuel :
  forall h, fst (MinerTest.main_poll silent_device fuel h) = None.
Proof.
  induction fuel as [|fuel IH]; intros h.
  - reflexivity.
  - rewrite main_poll_step.
    pose proof (main_poll_body_spec silent_device h) as E.
    cbv zeta in E. rewrite E. cbn [fst snd]. apply IH.
Qed.

Lemma main_poll_emits dev fuel :
  emits (test_poll_access 0x43C00000) (MinerTest.main_poll dev fuel).
Proof.
  induction fuel as [|fuel IH].
  - apply emits_ret.
  - simpl. apply emits_bind.
    + unfold MinerTest.main_poll_body, MinerTest.read_reg. emits_tac.
    + intros [it'|o]; [apply IH | apply emits_ret].
Qed.

Lemma main_poll_never_times_out dev fuel :
  forall h, fst (MinerTest.main_poll dev fuel h) <> Some TimedOut.
Proof.
  induction fuel as [|fuel IH]; intros h.
  - simpl. discriminate.
  - rewrite main_poll_step.
    pose proof (main_poll_body_spec dev h) as E.
    cbv zeta in E. rewrite E.
    destruct (negb (Z.land (wrap32 (dev h 0x43C00008)) 1 =? 0));
      [cbn; discriminate|].
    destruct (negb (Z.land (wrap32 (dev h 0x43C00008)) 2 =? 0));
      [cbn; discriminate|].
    cbn [fst snd]. apply IH.
Qed.

(** ** Set-up of a mining session *)

Lemma mining_loop_test_on_run dev header fuel h :
  let params := Sdk.process_block_header header Sdk.params_uninit in
  let setup := bank_writes 0x43C00000 0x300 Sdk.easy_target
               ++ bank_writes 0x43C00000 0x100 (Sdk.mid_state params)
               ++ bank_writes 0x43C00000 0x200 (Sdk.residual_data params)
               ++ [EvWrite 0x43C00004 1] in
  Sdk.mining_loop_test_on dev header fuel h
  = (fst (Sdk.polling_loop dev 10 1000 fuel 0 (h ++ setup)),
     setup ++ snd (Sdk.polling_loop dev 10 1000 fuel 0 (h ++ setup))).
Proof.
  cbv zeta. unfold Sdk.mining_loop_test_on. cbv zeta.
  set (params := Sdk.process_block_header header Sdk.params_uninit).
  unfold Sdk.set_test_difficulty.
  rewrite bind_fst_snd, (write_target_trace Sdk.easy_target h eq_refl).
  rewrite bind_fst_snd, (write_mid_state_trace (Sdk.mid_state params) _ eq_refl).
  rewrite bind_fst_snd,
    (write_residual_data_trace (Sdk.residual_data params) _ eq_refl).
  rewrite bind_fst_snd.
  change (snd (Sdk.start_mining _)) with [EvWrite 0x43C00004 1].
  rewrite <- !app_assoc. reflexivity.
Qed.

Lemma mining_loop_real_on_run dev header fuel h :
  let params := Sdk.process_block_header header Sdk.params_uninit in
  let setup := bank_writes 0x43C00000 0x300 Sdk.real_target
               ++ bank_writes 0x43C00000 0x100 (Sdk.mid_state params)
               ++ bank_writes 0x43C00000 0x200 (Sdk.residual_data params)
               ++ [EvWrite 0x43C00004 1] in
  Sdk.mining_loop_real_on dev header fuel h
  = (fst (Sdk.polling_loop dev 100 10000 fuel 0 (h ++ setup)),
     setup ++ snd (Sdk.polling_loop dev 100 10000 fuel 0 (h ++ setup))).
Proof.
  cbv zeta. unfold Sdk.mining_loop_real_on. cbv zeta.
  set (params := Sdk.process_block_header header Sdk.params_uninit).
  unfold Sdk.set_real_difficulty.
  rewrite bind_fst_snd, (write_target_trace Sdk.real_target h eq_refl).
  rewrite bind_fst_snd, (write_mid_state_trace (Sdk.mid_state params) _ eq_refl).
  rewrite bind_fst_snd,
    (write_residual_data_trace (Sdk.residual_data params) _ eq_refl).
  rewrite bind_fst_snd.
  change (snd (Sdk.start_mining _)) with [EvWrite 0x43C00004 1].
  rewrite <- !app_assoc. reflexivity.
Qed.

(** ** Loading the job, program by program *)

(** C3, program by program. [write_block_header] (the job loader of the
    test program) emits exactly the 19 stores of the three banks:
    midstate words 0..7 at [0x100 + 4i], then residual words 0..2 at
    [0x200 + 4i], then target words 0..7 at [0x300 + 4i], 19 stores to 19
    different addresses; the three bank writers of the SDK driver emit
    the stores of their own bank at the same addresses.  An SDK session
    also begins with 19 stores to these 19 different addresses, followed
    by the start pulse, but in the order target, midstate, residual, and
    the target words are the fixed array of the mode, whatever the
    header. *)
Theorem load_job_nineteen_writes_per_program
    (mid res tgt : list Z) (h : trace)
    (dev : device) (header : Sdk.bitcoin_block_header_t) (fuel : nat) :
  length mid = 8%nat -> length res = 3%nat -> length tgt = 8%nat ->
  let evs := snd (MinerTest.write_block_header mid res tgt h) in
  let params := Sdk.process_block_header header Sdk.params_uninit in
  let test_evs := snd (Sdk.mining_loop_test_on dev header fuel h) in
  let real_evs := snd (Sdk.mining_loop_real_on dev header fuel h) in
  evs = bank_writes 0x43C00000 0x100 mid
        ++ bank_writes 0x43C00000 0x200 res
        ++ bank_writes 0x43C00000 0x300 tgt
  /\ length evs = 19%nat
  /\ length (write_addrs evs) = 19%nat
  /\ NoDup (write_addrs evs)
  /\ snd (Sdk.write_mid_state mid h) = bank_writes 0x43C00000 0x100 mid
  /\ snd (Sdk.write_residual_data res h) = bank_writes 0x43C00000 0x200 res
  /\ snd (Sdk.write_target tgt h) = bank_writes 0x43C00000 0x300 tgt
  /\ firstn 19 test_evs
     = bank_writes 0x43C00000 0x300 Sdk.easy_target
       ++ bank_writes 0x43C00000 0x100 (Sdk.mid_state params)
       ++ bank_writes 0x43C00000 0x200 (Sdk.residual_data params)
  /\ firstn 19 real_evs
     = bank_writes 0x43C00000 0x300 Sdk.real_target
       ++ bank_writes 0x43C00000 0x100 (Sdk.mid_state params)
       ++ bank_writes 0x43C00000 0x200 (Sdk.residual_data params)
  /\ length (write_addrs (firstn 19 test_evs)) = 19%nat
  /\ NoDup (write_addrs (firstn 19 test_evs))
  /\ write_addrs (firstn 19 real_evs) = write_addrs (firstn 19 test_evs)
  /\ nth_error test_evs 19 = Some (EvWrite 0x43C00004 1)
  /\ nth_error real_evs 19 = Some (EvWrite 0x43C00004 1).
Proof.
  intros Hm Hr Ht evs params test_evs real_evs.
  assert (Et : firstn 20 test_evs
               = bank_writes 0x43C00000 0x300 Sdk.easy_target
                 ++ bank_writes 0x43C00000 0x100 (Sdk.mid_state params)
                 ++ bank_writes 0x43C00000 0x200 (Sdk.residual_data params)
                 ++ [EvWrite 0x43C00004 1]).
  { subst test_evs params.
    pose proof (mining_loop_test_on_run dev header fuel h) as R.
    cbv zeta in R. rewrite R. reflexivity. }
  assert (Er : firstn 20 real_evs
               = bank_writes 0x43C00000 0x300 Sdk.real_target
                 ++ bank_writes 0x43C00000 0x100 (Sdk.mid_state params)
                 ++ bank_writes 0x43C00000 0x200 (Sdk.residual_data params)
                 ++ [EvWrite 0x43C00004 1]).
  { subst real_evs params.
    pose proof (mining_loop_real_on_run dev header fuel h) as R.
    cbv zeta in R. rewrite R. reflexivity. }
  assert (Ft : firstn 19 test_evs = firstn 19 (firstn 20 test_evs))
    by (rewrite firstn_firstn; reflexivity).
  assert (Fr : firstn 19 real_evs = firstn 19 (firstn 20 real_evs))
    by (rewrite firstn_firstn; reflexivity).
  assert (Nt : nth_error test_evs 19 = nth_error (firstn 20 test_evs) 19)
    by (symmetry; apply nth_error_firstn; lia).
  assert (Nr : nth_error real_evs 19 = nth_error (firstn 20 real_evs) 19)
    by (symmetry; apply nth_error_firstn; lia).
  rewrite Ft, Fr, Nt, Nr, Et, Er. clearbody test_evs real_evs.
  split; [|split; [|split; [|split; [|split; [|split; [|split]]]]]].
  - subst evs. explode mid. explode res. explode tgt. reflexivity.
  - subst evs. explode mid. explode res. explode tgt. reflexivity.
  - subst evs. explode mid. explode res. explode tgt. reflexivity.
  - subst evs. explode mid. explode res. explode tgt.
    apply distinct_NoDup. reflexivity.
  - apply write_mid_state_trace; assumption.
  - apply write_residual_data_trace; assumption.
  - apply write_target_trace; assumption.
  - split; [reflexivity|]. split; [reflexivity|]. split; [reflexivity|].
    split; [apply distinct_NoDup; reflexivity|].
    repeat split.
Qed.

Lemma load_job_nineteen_writes_per_program_witness :
  snd (MinerTest.write_block_header MinerTest.mid MinerTest.res MinerTest.tgt [])
  = [EvWrite 0x43C00100 0x6a09e667; EvWrite 0x43C00104 0xbb67ae85;
     EvWrite 0x43C00108 0x3c6ef372; EvWrite 0x43C0010C 0xa54ff53a;
     EvWrite 0x43C00110 0x510e527f; EvWrite 0x43C00114 0x9b05688c;
     EvWrite 0x43C00118 0x1f83d9ab; EvWrite 0x43C0011C 0x5be0cd19;
     EvWrite 0x43C00200 0x80000000; EvWrite 0x43C00204 0x00000000;
     EvWrite 0x43C00208 0x00000100;
     EvWrite 0x43C00300 0x0000ffff; EvWrite 0x43C00304 0xffffffff;
     EvWrite 0x43C00308 0xffffffff; EvWrite 0x43C0030C 0xffffffff;
     EvWrite 0x43C00310 0xffffffff; EvWrite 0x43C00314 0xffffffff;
     EvWrite 0x43C00318 0xffffffff; EvWrite 0x43C0031C 0xffffffff]
  /\ write_addrs
       (firstn 19 (snd (Sdk.mining_loop_test_on silent_device test_header 1 [])))
     = [0x43C00300; 0x43C00304; 0x43C00308; 0x43C0030C;
        0x43C00310; 0x43C00314; 0x43C00318; 0x43C0031C;
        0x43C00100; 0x43C00104; 0x43C00108; 0x43C0010C;
        0x43C00110; 0x43C00114; 0x43C00118; 0x43C0011C;
        0x43C00200; 0x43C00204; 0x43C00208].
Proof.
  destruct (load_job_nineteen_writes_per_program
              MinerTest.mid MinerTest.res MinerTest.tgt []
              silent_device test_header 1
              eq_refl eq_refl eq_refl) as (E & _ & _ & _ & _ & _ & _ & T & _).
  split.
  - rewrite E. reflexivity.
  - rewrite T. reflexivity.
Defined.

(** C3 does not hold of the loading an SDK session does: the first 19
    events of [mining_loop_test] are the stores of the target bank, then
    the midstate bank, then the residual bank, and the target words stored
    are the fixed easy target, not the target computed from the header;
    so they are not the stores of the job in the order midstate,
    residual, target. *)
Lemma sdk_session_loads_target_first :
  firstn 19 (snd (Sdk.mining_loop_test silent_device 0 1 []))
  = [EvWrite 0x43C00300 0xFFFFFFFF; EvWrite 0x43C00304 0xFFFFFFFF;
     EvWrite 0x43C00308 0xFFFFFFFF; EvWrite 0x43C0030C 0xFFFFFFFF;
     EvWrite 0x43C00310 0xFFFFFFFF; EvWrite 0x43C00314 0xFFFFFFFF;
     EvWrite 0x43C00318 0xFFFFFFFF; EvWrite 0x43C0031C 0x000000FF;
     EvWrite 0x43C00100 0x12345678; EvWrite 0x43C00104 0x12345679;
     EvWrite 0x43C00108 0x1234567A; EvWrite 0x43C0010C 0x1234567B;
     EvWrite 0x43C00110 0x1234567C; EvWrite 0x43C00114 0x1234567D;
     EvWrite 0x43C00118 0x1234567E; EvWrite 0x43C0011C 0x1234567F;
     EvWrite 0x43C00200 0; EvWrite 0x43C00204 0x80000000;
     EvWrite 0x43C00208 0x00000140]
  /\ firstn 19 (snd (Sdk.mining_loop_test silent_device 0 1 []))
     <> (let job := Sdk.process_block_header test_header Sdk.params_uninit in
         bank_writes 0x43C00000 0x100 (Sdk.mid_state job)
         ++ bank_writes 0x43C00000 0x200 (Sdk.residual_data job)
         ++ bank_writes 0x43C00000 0x300 (Sdk.target job))
  /\ Sdk.target (Sdk.process_block_header test_header Sdk.params_uninit)
     = [0x00FFFF; 0xFFFFFFFF; 0xFFFFFFFF; 0xFFFFFFFF;
        0xFFFFFFFF; 0xFFFFFFFF; 0xFFFFFFFF; 0xFFFFFFFF].
Proof.
  split; [reflexivity|]. split; [|reflexivity].
  vm_compute. discriminate.
Qed.

(** ** Termination and outcomes *)

(** C1, for the SDK loops. Whatever the device answers, the polling loop of
    [mining_loop_test] (cap 1000) and that of [mining_loop_real] (cap
    10000) have left through a [break] within cap + 1 passes, and more
    fuel does not change the run.  A loop that timed out went through
    exactly cap + 1 polling delays and ended with the last delay followed
    by the reset pulse of [stop_mining]; a loop that ended otherwise went
    through at most cap delays.  The polling loop of the test program has
    no cap: while the status word reads 0 it never returns. *)
Theorem sdk_polling_loops_end_within_cap (dev : device) (h : trace) :
  (exists o evs,
      (forall k, Sdk.polling_loop dev 10 1000 (Z.to_nat (1000 + 1) + k) 0 h
                 = (Some o, evs))
      /\ match o with
         | TimedOut =>
             Z.of_nat (count (is_sleep_of 100000) evs) = 1000 + 1
             /\ exists pre, evs = pre ++ EvSleep 100000 :: reset_pulse 0x43C00000
         | _ => Z.of_nat (count (is_sleep_of 100000) evs) <= 1000
         end)
  /\ (exists o evs,
      (forall k, Sdk.polling_loop dev 100 10000 (Z.to_nat (10000 + 1) + k) 0 h
                 = (Some o, evs))
      /\ match o with
         | TimedOut =>
             Z.of_nat (count (is_sleep_of 100000) evs) = 10000 + 1
             /\ exists pre, evs = pre ++ EvSleep 100000 :: reset_pulse 0x43C00000
         | _ => Z.of_nat (count (is_sleep_of 100000) evs) <= 10000
         end)
  /\ (forall fuel, fst (MinerTest.main_poll silent_device fuel h) = None).
Proof.
  split; [|split].
  - destruct (polling_loop_terminates dev 10 1000 ltac:(lia)
                (Z.to_nat (1000 + 1)) 0 h ltac:(lia) ltac:(lia))
      as (o & evs & E).
    exists o, evs. split.
    + intros k. apply polling_loop_fuel_mono. exact E.
    + pose proof (polling_loop_delays dev 10 1000 ltac:(lia) _ 0 h o evs
                    ltac:(lia) E) as D.
      destruct o; [lia | lia |].
      destruct D as [D1 D2]. split; [lia | exact D2].
  - destruct (polling_loop_terminates dev 100 10000 ltac:(lia)
                (Z.to_nat (10000 + 1)) 0 h ltac:(lia) ltac:(lia))
      as (o & evs & E).
    exists o, evs. split.
    + intros k. apply polling_loop_fuel_mono. exact E.
    + pose proof (polling_loop_delays dev 100 10000 ltac:(lia) _ 0 h o evs
                    ltac:(lia) E) as D.
      destruct o; [lia | lia |].
      destruct D as [D1 D2]. split; [lia | exact D2].
  - intros fuel. apply main_poll_silent_runs_on.
Qed.

(** C1 does not hold of the polling loop of the test program: with a
    status word that stays 0 the loop is still running after 1002 passes,
    and after 10002. *)
Lemma test_program_poll_runs_past_any_cap :
  fst (MinerTest.main_poll silent_device (Z.to_nat 1002) []) = None
  /\ fst (MinerTest.main_poll silent_device (Z.to_nat 10002) []) = None.
Proof. split; apply main_poll_silent_runs_on. Qed.

Lemma test_setup_no_reset header :
  let params := Sdk.process_block_header header Sdk.params_uninit in
  count (is_write_to 0x43C00000)
        (bank_writes 0x43C00000 0x300 Sdk.easy_target
         ++ bank_writes 0x43C00000 0x100 (Sdk.mid_state params)
         ++ bank_writes 0x43C00000 0x200 (Sdk.residual_data params)
         ++ [EvWrite 0x43C00004 1]) = 0%nat.
Proof. reflexivity. Qed.

Lemma real_setup_no_reset header :
  let params := Sdk.process_block_header header Sdk.params_uninit in
  count (is_write_to 0x43C00000)
        (bank_writes 0x43C00000 0x300 Sdk.real_target
         ++ bank_writes 0x43C00000 0x100 (Sdk.mid_state params)
         ++ bank_writes 0x43C00000 0x200 (Sdk.residual_data params)
         ++ [EvWrite 0x43C00004 1]) = 0%nat.
Proof. reflexivity. Qed.

(** C7, for the SDK sessions. Whatever the device answers, [mining_loop_test] and
    [mining_loop_real], given cap + 1 passes, return one outcome
    (GoldenNonceFound, RangeExhausted or TimedOut); their trace ends with
    the reset pulse of [stop_mining], and nothing is stored to the reset
    control before that pulse: [stop_mining] ran once.  The polling loop
    of the test program stores nothing to the reset control and never
    reports TimedOut. *)
Theorem sdk_session_one_outcome_one_stop (dev : device) (now : Z) (h : trace) :
  (exists o pre,
      Sdk.mining_loop_test dev now (Z.to_nat (1000 + 1)) h
      = (Some o, pre ++ reset_pulse 0x43C00000)
      /\ count (is_write_to 0x43C00000) pre = 0%nat)
  /\ (exists o pre,
      Sdk.mining_loop_real dev now (Z.to_nat (10000 + 1)) h
      = (Some o, pre ++ reset_pulse 0x43C00000)
      /\ count (is_write_to 0x43C00000) pre = 0%nat)
  /\ (forall fuel,
      count (is_write_to 0x43C00000) (snd (MinerTest.main_poll dev fuel h)) = 0%nat
      /\ fst (MinerTest.main_poll dev fuel h) <> Some TimedOut).
Proof.
  split; [|split].
  - unfold Sdk.mining_loop_test.
    match goal with
    | |- context [Sdk.mining_loop_test_on dev ?hd _ _] => set (header := hd)
    end.
    pose proof (mining_loop_test_on_run dev header (Z.to_nat (1000 + 1)) h) as R.
    cbv zeta in R. rewrite R. clear R.
    match goal with
    | |- context [Sdk.polling_loop dev 10 1000 _ 0 (h ++ ?s)] => set (setup := s)
    end.
    destruct (polling_loop_terminates dev 10 1000 ltac:(lia)
                (Z.to_nat (1000 + 1)) 0 (h ++ setup) ltac:(lia) ltac:(lia))
      as (o & evs & E).
    destruct (polling_loop_stops_once dev 10 1000 _ _ _ _ _ E) as (pre & -> & Hc).
    rewrite E. cbn [fst snd].
    exists o, (setup ++ pre). rewrite <- app_assoc. split; [reflexivity|].
    rewrite count_app, Hc. unfold setup.
    rewrite (test_setup_no_reset header). reflexivity.
  - unfold Sdk.mining_loop_real.
    match goal with
    | |- context [Sdk.mining_loop_real_on dev ?hd _ _] => set (header := hd)
    end.
    pose proof (mining_loop_real_on_run dev header (Z.to_nat (10000 + 1)) h) as R.
    cbv zeta in R. rewrite R. clear R.
    match goal with
    | |- context [Sdk.polling_loop dev 100 10000 _ 0 (h ++ ?s)] => set (setup := s)
    end.
    destruct (polling_loop_terminates dev 100 10000 ltac:(lia)
                (Z.to_nat (10000 + 1)) 0 (h ++ setup) ltac:(lia) ltac:(lia))
      as (o & evs & E).
    destruct (polling_loop_stops_once dev 100 10000 _ _ _ _ _ E) as (pre & -> & Hc).
    rewrite E. cbn [fst snd].
    exists o, (setup ++ pre). rewrite <- app_assoc. split; [reflexivity|].
    rewrite count_app, Hc. unfold setup.
    rewrite (real_setup_no_reset header). reflexivity.
  - intros fuel. split.
    + apply (count_none _ (test_poll_access 0x43C00000)).
      * intros [a v|a v|u]; simpl; intros H; [discriminate | reflexivity..].
      * apply main_poll_emits.
    + apply main_poll_never_times_out.
Qed.

(** C7 does not hold of the test program: when the first status word
    has bit 0 set its loop reports the golden nonce and [main] ends
    without a store to the reset control after the start pulse. *)
Lemma test_program_found_without_stop :
  MinerTest.main_poll eager_device 1 []
  = (Some (GoldenNonceFound 1), [EvRead 0x43C00008 1; EvRead 0x43C0000C 1])
  /\ skipn 22 (snd (MinerTest.main eager_device 1 []))
     = [EvWrite 0x43C00004 1; EvRead 0x43C00008 1; EvRead 0x43C0000C 1]
  /\ count (is_write_to 0x43C00000)
           (skipn 22 (snd (MinerTest.main eager_device 1 []))) = 0%nat.
Proof. repeat split. Qed.

(** ** Order of the status checks *)

Lemma get_current_nonce_run dev h :
  Sdk.get_current_nonce dev h
  = (wrap32 (dev (h ++ [EvWrite 0x43C00010 1; EvSleep 1000; EvWrite 0x43C00010 0])
                 0x43C0000C),
     [EvWrite 0x43C00010 1; EvSleep 1000; EvWrite 0x43C00010 0;
      EvRead 0x43C0000C
        (wrap32 (dev (h ++ [EvWrite 0x43C00010 1; EvSleep 1000;
                            EvWrite 0x43C00010 0]) 0x43C0000C))]).
Proof.
  unfold Sdk.get_current_nonce, Sdk.write_register, Sdk.read_register.
  change (wrap32 (Sdk.MINER_BASE_ADDR + Sdk.CTRL_CURRENT_HASH_REQ))
    with 0x43C00010.
  change (wrap32 (Sdk.MINER_BASE_ADDR + Sdk.STATUS_CURRENT_NONCE))
    with 0x43C0000C.
  cbv [bind Xil_Out32 usleep Xil_In32]. cbn [app].
  rewrite <- !app_assoc. reflexivity.
Qed.

(** The status snapshot: the current-nonce handshake, then the found
    register, then the not-found register, then the golden-nonce register
    when the found word is not 0. *)
Lemma print_mining_status_trace dev h :
  exists c f nf g,
    snd (Sdk.print_mining_status dev h)
    = [EvWrite 0x43C00010 1; EvSleep 1000; EvWrite 0x43C00010 0;
       EvRead 0x43C0000C c; EvRead 0x43C00000 f; EvRead 0x43C00004 nf]
      ++ (if f =? 0 then [] else [EvRead 0x43C00008 g]).
Proof.
  unfold Sdk.print_mining_status.
  rewrite bind_fst_snd.
  rewrite get_current_nonce_run. cbn [fst snd].
  match goal with
  | |- context [EvRead 0x43C0000C ?v] => set (c := v)
  end.
  generalize (h ++ [EvWrite 0x43C00010 1; EvSleep 1000; EvWrite 0x43C00010 0;
                    EvRead 0x43C0000C c]).
  intros h0.
  unfold Sdk.get_golden_nonce, Sdk.read_register.
  change (wrap32 (Sdk.MINER_BASE_ADDR + Sdk.STATUS_FOUND)) with 0x43C00000.
  change (wrap32 (Sdk.MINER_BASE_ADDR + Sdk.STATUS_NOT_FOUND)) with 0x43C00004.
  change (wrap32 (Sdk.MINER_BASE_ADDR + Sdk.STATUS_GOLDEN_NONCE)) with 0x43C00008.
  set (f := wrap32 (dev h0 0x43C00000)).
  set (nf := wrap32 (dev (h0 ++ [EvRead 0x43C00000 f]) 0x43C00004)).
  set (g := wrap32 (dev ((h0 ++ [EvRead 0x43C00000 f]) ++ [EvRead 0x43C00004 nf])
                        0x43C00008)).
  exists c, f, nf, g.
  cbv [bind Xil_In32 ret]. cbn [app]. fold f. fold nf.
  destruct (f =? 0); cbn [negb]; cbv beta iota; [reflexivity|].
  fold g. reflexivity.
Qed.

(** C4. In one pass of an SDK polling loop the found register is loaded
    by [check_found] before anything else is decided (a status snapshot,
    when one is due, comes first and itself loads the found register
    before the not-found register).  When bit 0 of the
    loaded word is set, the pass loads the golden-nonce register next,
    runs [stop_mining] and reports that value as GoldenNonceFound; when it
    is clear, the next access is the load of the not-found register and
    the pass does not report a golden nonce.  A whole loop that reports a
    golden nonce (or exhaustion) ends with exactly these accesses.  The
    test program loads one status word per pass and tests bit 0 (found)
    before bit 1 (exhausted); the golden-nonce register is loaded after
    the status word, and only when bit 0 is set. *)
Theorem found_checked_before_exhausted
    (dev : device) (period cap iteration : Z) (fuel : nat) (h : trace) :
  (let pre := snd ((if Z.rem iteration period =? 0
                    then Sdk.print_mining_status dev else ret tt) h) in
   let f := wrap32 (dev (h ++ pre) 0x43C00000) in
   let h1 := (h ++ pre) ++ [EvRead 0x43C00000 f] in
   if Z.land f 1 =? 0 then
     (exists tail,
         snd (Sdk.poll_body dev period cap iteration h)
         = pre ++ [EvRead 0x43C00000 f;
                   EvRead 0x43C00004 (wrap32 (dev h1 0x43C00004))] ++ tail)
     /\ match fst (Sdk.poll_body dev period cap iteration h) with
        | Break (GoldenNonceFound _) => False
        | _ => True
        end
   else
     Sdk.poll_body dev period cap iteration h
     = (Break (GoldenNonceFound (wrap32 (dev h1 0x43C00008))),
        pre ++ [EvRead 0x43C00000 f;
                EvRead 0x43C00008 (wrap32 (dev h1 0x43C00008))]
            ++ reset_pulse 0x43C00000))
  /\ (exists c f nf g,
        snd (Sdk.print_mining_status dev h)
        = [EvWrite 0x43C00010 1; EvSleep 1000; EvWrite 0x43C00010 0;
           EvRead 0x43C0000C c; EvRead 0x43C00000 f; EvRead 0x43C00004 nf]
          ++ (if f =? 0 then [] else [EvRead 0x43C00008 g]))
  /\ match Sdk.polling_loop dev period cap fuel iteration h with
     | (Some (GoldenNonceFound g), evs) =>
         exists pre f,
           evs = pre ++ [EvRead 0x43C00000 f; EvRead 0x43C00008 g]
                     ++ reset_pulse 0x43C00000
           /\ Z.land f 1 <> 0
           /\ g = wrap32 (dev (h ++ pre ++ [EvRead 0x43C00000 f]) 0x43C00008)
     | (Some RangeExhausted, evs) =>
         exists pre f nf,
           evs = pre ++ [EvRead 0x43C00000 f; EvRead 0x43C00004 nf]
                     ++ reset_pulse 0x43C00000
           /\ Z.land f 1 = 0 /\ nf <> 0
     | _ => True
     end
  /\ (let s := wrap32 (dev h 0x43C00008) in
      let h1 := h ++ [EvRead 0x43C00008 s] in
      MinerTest.main_poll_body dev h =
      if negb (Z.land s 1 =? 0) then
        (Break (GoldenNonceFound (wrap32 (dev h1 0x43C0000C))),
         [EvRead 0x43C00008 s; EvRead 0x43C0000C (wrap32 (dev h1 0x43C0000C))])
      else if negb (Z.land s 2 =? 0) then
        (Break RangeExhausted, [EvRead 0x43C00008 s])
      else
        (Continue 0,
         [EvRead 0x43C00008 s; EvRead 0x43C00014 (wrap32 (dev h1 0x43C00014));
          EvSleep 10000])).
Proof.
  split; [|split; [|split]].
  - cbv zeta. pose proof (poll_body_spec dev period cap iteration h) as E.
    cbv zeta in E. rewrite E. clear E.
    destruct (Z.land _ 1 =? 0); cbn [negb]; [|reflexivity].
    destruct (negb (_ =? 0)).
    + split; [|exact I]. eexists. reflexivity.
    + destruct (int32 (iteration + 1) >? cap).
      * split; [|exact I]. eexists. cbn [snd app]. reflexivity.
      * split; [|exact I]. eexists. cbn [snd app]. reflexivity.
  - apply print_mining_status_trace.
  - destruct (Sdk.polling_loop dev period cap fuel iteration h)
      as [[o|] evs] eqn:E; [|exact I].
    apply polling_loop_found_first in E.
    destruct o; [| |exact I].
    + destruct E as (pre & f & E1 & E2 & E3). exists pre, f. auto.
    + exact E.
  - exact (main_poll_body_spec dev h).
Qed.

(** ** Register map *)

Lemma poll_body_emits dev period cap iteration :
  emits (sdk_poll_access 0x43C00000) (Sdk.poll_body dev period cap iteration).
Proof.
  unfold Sdk.poll_body, Sdk.print_mining_status, Sdk.check_found,
    Sdk.get_current_nonce, Sdk.get_golden_nonce, Sdk.stop_mining,
    Sdk.read_register, Sdk.write_register.
  cbv zeta. emits_tac.
Qed.

Lemma polling_loop_emits dev period cap fuel :
  forall iteration,
    emits (sdk_poll_access 0x43C00000)
          (Sdk.polling_loop dev period cap fuel iteration).
Proof.
  induction fuel as [|fuel IH]; intros iteration.
  - apply emits_ret.
  - simpl. apply emits_bind.
    + apply poll_body_emits.
    + intros [it'|o]; [apply IH | apply emits_ret].
Qed.

Lemma sdk_poll_access_in_map e :
  sdk_poll_access 0x43C00000 e = true -> sdk_access 0x43C00000 e = true.
Proof.
  destruct e as [a v|a v|u]; simpl; try (intros; assumption).
  intros H. apply orb_true_iff in H as [H|H]; rewrite H;
    rewrite ?orb_true_r; reflexivity.
Qed.

Lemma sdk_poll_access_not_target e :
  sdk_poll_access 0x43C00000 e = true -> is_target_write 0x43C00000 e = false.
Proof.
  destruct e as [a v|a v|u]; simpl; try reflexivity.
  intros H. apply orb_true_iff in H as [H|H]; apply Z.eqb_eq in H; subst a;
    reflexivity.
Qed.

Lemma test_poll_access_in_map e :
  test_poll_access 0x43C00000 e = true -> SpecMap.allowed 0x43C00000 e = true.
Proof. destruct e as [a v|a v|u]; simpl; intros H; [discriminate | exact H..]. Qed.

Ltac unroll_for :=
  unfold for_range;
  repeat match goal with
         | |- context [Z.to_nat ?z] =>
             let n := eval cbv in (Z.to_nat z) in change (Z.to_nat z) with n
         end;
  cbn [for_count].

Lemma sdk_write_target_emits ws :
  emits (sdk_access 0x43C00000) (Sdk.write_target ws).
Proof. unfold Sdk.write_target, Sdk.write_register. unroll_for. emits_tac. Qed.

Lemma sdk_write_mid_state_emits ws :
  emits (sdk_access 0x43C00000) (Sdk.write_mid_state ws).
Proof. unfold Sdk.write_mid_state, Sdk.write_register. unroll_for. emits_tac. Qed.

Lemma sdk_write_residual_data_emits ws :
  emits (sdk_access 0x43C00000) (Sdk.write_residual_data ws).
Proof.
  unfold Sdk.write_residual_data, Sdk.write_register. unroll_for. emits_tac.
Qed.

Lemma sdk_stop_mining_emits : emits (sdk_access 0x43C00000) Sdk.stop_mining.
Proof. unfold Sdk.stop_mining, Sdk.write_register. emits_tac. Qed.

Lemma sdk_mining_loop_test_on_emits dev header fuel :
  emits (sdk_access 0x43C00000) (Sdk.mining_loop_test_on dev header fuel).
Proof.
  unfold Sdk.mining_loop_test_on, Sdk.set_test_difficulty. cbv zeta.
  apply emits_bind; [apply sdk_write_target_emits | intros _].
  apply emits_bind; [apply sdk_write_mid_state_emits | intros _].
  apply emits_bind; [apply sdk_write_residual_data_emits | intros _].
  apply emits_bind; [apply emits_Xil_Out32; reflexivity | intros _].
  apply (emits_weaken _ _ _ sdk_poll_access_in_map), polling_loop_emits.
Qed.

Lemma sdk_mining_loop_real_on_emits dev header fuel :
  emits (sdk_access 0x43C00000) (Sdk.mining_loop_real_on dev header fuel).
Proof.
  unfold Sdk.mining_loop_real_on, Sdk.set_real_difficulty. cbv zeta.
  apply emits_bind; [apply sdk_write_target_emits | intros _].
  apply emits_bind; [apply sdk_write_mid_state_emits | intros _].
  apply emits_bind; [apply sdk_write_residual_data_emits | intros _].
  apply emits_bind; [apply emits_Xil_Out32; reflexivity | intros _].
  apply (emits_weaken _ _ _ sdk_poll_access_in_map), polling_loop_emits.
Qed.

Lemma sdk_main_emits dev choice now fuel :
  emits (sdk_access 0x43C00000) (Sdk.main dev choice now fuel).
Proof.
  unfold Sdk.main.
  apply emits_bind; [apply sdk_stop_mining_emits | intros _].
  unfold Sdk.mining_loop_test, Sdk.mining_loop_real.
  apply emits_if; [apply sdk_mining_loop_test_on_emits|].
  apply emits_if;
    [apply sdk_mining_loop_real_on_emits | apply sdk_mining_loop_test_on_emits].
Qed.

Lemma test_main_emits dev fuel :
  emits (SpecMap.allowed 0x43C00000) (MinerTest.main dev fuel).
Proof.
  unfold MinerTest.main.
  apply emits_bind; [| intros _].
  { unfold MinerTest.write_block_header, MinerTest.write_reg. unroll_for.
    emits_tac. }
  apply emits_bind; [| intros _].
  { unfold MinerTest.main_reset, MinerTest.write_reg. emits_tac. }
  apply emits_bind; [apply emits_Xil_Out32; reflexivity | intros _].
  apply (emits_weaken _ _ _ test_poll_access_in_map), main_poll_emits.
Qed.

(** C2, program by program. Every access of the test program follows the
    tabulated map: it loads the status word at [0x008], the golden nonce
    at [0x00C] and the current nonce at [0x014], and stores to reset at
    [0x000], to start at [0x004] and to the three parameter banks.  The
    SDK driver stores to reset, start and the current-nonce request at
    [0x000], [0x004] and [0x010], but loads the found status at [0x000],
    the not-found status at [0x004], the golden nonce at [0x008] and the
    current nonce at [0x00C].  Every access goes to [0x43C00000] plus the
    offset. *)
Theorem register_map_of_each_program
    (dev : device) (choice now : Z) (fuel : nat) (h : trace) :
  forallb (SpecMap.allowed 0x43C00000) (snd (MinerTest.main dev fuel h)) = true
  /\ read_addrs (snd (MinerTest.main_poll_body dev h))
     = (if negb (Z.land (wrap32 (dev h (0x43C00000 + SpecMap.STATUS))) 1 =? 0)
        then [0x43C00000 + SpecMap.STATUS; 0x43C00000 + SpecMap.GOLDEN_NONCE]
        else if negb (Z.land (wrap32 (dev h (0x43C00000 + SpecMap.STATUS))) 2 =? 0)
        then [0x43C00000 + SpecMap.STATUS]
        else [0x43C00000 + SpecMap.STATUS; 0x43C00000 + SpecMap.CUR_NONCE])
  /\ snd (MinerTest.main_reset h) = reset_pulse (0x43C00000 + SpecMap.RESET)
  /\ snd (MinerTest.write_reg MinerTest.REG_START 1 h)
     = [EvWrite (0x43C00000 + SpecMap.START) 1]
  /\ forallb (sdk_access 0x43C00000) (snd (Sdk.main dev choice now fuel h)) = true
  /\ read_addrs (snd (Sdk.check_found dev h)) = [0x43C00000 + 0x000]
  /\ read_addrs (snd (Sdk.read_register dev Sdk.STATUS_NOT_FOUND h))
     = [0x43C00000 + 0x004]
  /\ read_addrs (snd (Sdk.get_golden_nonce dev h)) = [0x43C00000 + 0x008]
  /\ read_addrs (snd (Sdk.get_current_nonce dev h)) = [0x43C00000 + 0x00C]
  /\ write_addrs (snd (Sdk.get_current_nonce dev h))
     = [0x43C00000 + SpecMap.CUR_REQ; 0x43C00000 + SpecMap.CUR_REQ]
  /\ snd (Sdk.stop_mining h) = reset_pulse (0x43C00000 + SpecMap.RESET)
  /\ snd (Sdk.start_mining h) = [EvWrite (0x43C00000 + SpecMap.START) 1].
Proof.
  split; [apply test_main_emits|].
  split.
  { pose proof (main_poll_body_spec dev h) as E. cbv zeta in E. rewrite E.
    change (0x43C00000 + SpecMap.STATUS) with 0x43C00008.
    destruct (negb (Z.land _ 1 =? 0)); [reflexivity|].
    destruct (negb (Z.land _ 2 =? 0)); reflexivity. }
  split; [reflexivity|]. split; [reflexivity|].
  split; [apply sdk_main_emits|].
  repeat split.
Qed.

(** C2 does not hold of the SDK driver: its found status is loaded
    from offset [0x000], its golden nonce from [0x008] and its current
    nonce from [0x00C], none of which the tabulated map allows a load
    from or gives that meaning. *)
Lemma sdk_status_offsets_are_not_the_tabulated_ones :
  Sdk.check_found silent_device [] = (0, [EvRead 0x43C00000 0])
  /\ forallb (SpecMap.allowed 0x43C00000)
             (snd (Sdk.check_found silent_device [])) = false
  /\ read_addrs (snd (Sdk.check_found silent_device []))
     <> [0x43C00000 + SpecMap.STATUS]
  /\ read_addrs (snd (Sdk.get_golden_nonce silent_device []))
     <> [0x43C00000 + SpecMap.GOLDEN_NONCE]
  /\ read_addrs (snd (Sdk.get_current_nonce silent_device []))
     <> [0x43C00000 + SpecMap.CUR_NONCE].
Proof. repeat split; discriminate. Qed.

(** ** Header translation *)

(** C8. Whatever the header holds, [process_block_header] leaves the
    residual words [{nonce, 0x80000000, 0x140}] and the target words
    [{bits & 0xFFFFFF, 0xFFFFFFFF x 7}], the first being the low three
    bytes of [bits]; for [bits = 0x1D00FFFF] target word 0 is [0x00FFFF]
    and words 1 to 7 are [0xFFFFFFFF]. *)
Theorem process_block_header_residual_and_target
    (header : Sdk.bitcoin_block_header_t) (params0 : Sdk.mining_params_t) :
  length (Sdk.residual_data params0) = 3%nat ->
  length (Sdk.target params0) = 8%nat ->
  Sdk.residual_data (Sdk.process_block_header header params0)
  = [Sdk.nonce header; 0x80000000; 0x00000140]
  /\ Sdk.target (Sdk.process_block_header header params0)
     = [Z.land (Sdk.bits header) 0xFFFFFF;
        0xFFFFFFFF; 0xFFFFFFFF; 0xFFFFFFFF; 0xFFFFFFFF;
        0xFFFFFFFF; 0xFFFFFFFF; 0xFFFFFFFF]
  /\ Z.land (Sdk.bits header) 0xFFFFFF = Sdk.bits header mod 2 ^ 24
  /\ Sdk.target
       (Sdk.process_block_header
          {| Sdk.version := Sdk.version header;
             Sdk.prev_block := Sdk.prev_block header;
             Sdk.merkle_root := Sdk.merkle_root header;
             Sdk.timestamp := Sdk.timestamp header;
             Sdk.bits := 0x1D00FFFF;
             Sdk.nonce := Sdk.nonce header |} params0)
     = [0x00FFFF;
        0xFFFFFFFF; 0xFFFFFFFF; 0xFFFFFFFF; 0xFFFFFFFF;
        0xFFFFFFFF; 0xFFFFFFFF; 0xFFFFFFFF].
Proof.
  destruct params0 as [m r t]. cbn [Sdk.residual_data Sdk.target].
  intros Hr Ht. explode r. explode t.
  repeat split.
  change 0xFFFFFF with (Z.ones 24). apply Z.land_ones. lia.
Qed.

Lemma process_block_header_residual_and_target_witness :
  Sdk.residual_data (Sdk.process_block_header test_header Sdk.params_uninit)
  = [0; 0x80000000; 0x00000140]
  /\ Sdk.target (Sdk.process_block_header test_header Sdk.params_uninit)
     = [0x00FFFF;
        0xFFFFFFFF; 0xFFFFFFFF; 0xFFFFFFFF; 0xFFFFFFFF;
        0xFFFFFFFF; 0xFFFFFFFF; 0xFFFFFFFF].
Proof.
  destruct (process_block_header_residual_and_target
              test_header Sdk.params_uninit eq_refl eq_refl)
    as (R & T & _).
  split; [exact R | exact T].
Defined.

(** ** Mode selection *)



(** ** What reaches the target registers *)

Lemma filter_none (p : event -> bool) t : count p t = 0%nat -> filter p t = [].
Proof. unfold count. apply length_zero_iff_nil. Qed.

Lemma polling_loop_leaves_target dev period cap fuel iteration h :
  count (is_target_write 0x43C00000)
        (snd (Sdk.polling_loop dev period cap fuel iteration h)) = 0%nat.
Proof.
  apply (count_none _ _ _ sdk_poll_access_not_target
                    (polling_loop_emits dev period cap fuel iteration h)).
Qed.

(** C10. For every header, [mining_loop_test] first stores the eight
    words of the fixed array of [set_test_difficulty] to the target bank,
    then the midstate and residual banks, and stores nothing else to the
    target bank for the rest of the session; so the stores to the target
    bank are the same for every header, and they are not the target that
    [process_block_header] computed from the header.  The same holds for
    [mining_loop_real] and the fixed array of [set_real_difficulty]. *)
Theorem target_registers_hold_the_fixed_array
    (dev : device) (header : Sdk.bitcoin_block_header_t) (now : Z)
    (fuel : nat) (h : trace) :
  let params := Sdk.process_block_header header Sdk.params_uninit in
  (exists rest,
      snd (Sdk.mining_loop_test_on dev header fuel h)
      = bank_writes 0x43C00000 0x300 Sdk.easy_target
        ++ bank_writes 0x43C00000 0x100 (Sdk.mid_state params)
        ++ bank_writes 0x43C00000 0x200 (Sdk.residual_data params)
        ++ rest
      /\ count (is_target_write 0x43C00000) rest = 0%nat)
  /\ filter (is_target_write 0x43C00000)
            (snd (Sdk.mining_loop_test_on dev header fuel h))
     = bank_writes 0x43C00000 0x300 Sdk.easy_target
  /\ filter (is_target_write 0x43C00000)
            (snd (Sdk.mining_loop_test dev now fuel h))
     = bank_writes 0x43C00000 0x300 Sdk.easy_target
  /\ Sdk.target params <> Sdk.easy_target
  /\ (exists rest,
      snd (Sdk.mining_loop_real_on dev header fuel h)
      = bank_writes 0x43C00000 0x300 Sdk.real_target
        ++ bank_writes 0x43C00000 0x100 (Sdk.mid_state params)
        ++ bank_writes 0x43C00000 0x200 (Sdk.residual_data params)
        ++ rest
      /\ count (is_target_write 0x43C00000) rest = 0%nat)
  /\ filter (is_target_write 0x43C00000)
            (snd (Sdk.mining_loop_real_on dev header fuel h))
     = bank_writes 0x43C00000 0x300 Sdk.real_target
  /\ filter (is_target_write 0x43C00000)
            (snd (Sdk.mining_loop_real dev now fuel h))
     = bank_writes 0x43C00000 0x300 Sdk.real_target
  /\ Sdk.target params <> Sdk.real_target.
Proof.
  assert (T : forall hd,
             filter (is_target_write 0x43C00000)
                    (snd (Sdk.mining_loop_test_on dev hd fuel h))
             = bank_writes 0x43C00000 0x300 Sdk.easy_target).
  { intros hd. pose proof (mining_loop_test_on_run dev hd fuel h) as R.
    cbv zeta in R. rewrite R. cbn [snd].
    rewrite !filter_app.
    rewrite (filter_none _ _ (polling_loop_leaves_target dev _ _ _ _ _)).
    reflexivity. }
  assert (R : forall hd,
             filter (is_target_write 0x43C00000)
                    (snd (Sdk.mining_loop_real_on dev hd fuel h))
             = bank_writes 0x43C00000 0x300 Sdk.real_target).
  { intros hd. pose proof (mining_loop_real_on_run dev hd fuel h) as R.
    cbv zeta in R. rewrite R. cbn [snd].
    rewrite !filter_app.
    rewrite (filter_none _ _ (polling_loop_leaves_target dev _ _ _ _ _)).
    reflexivity. }
  intros params.
  split; [|split; [|split; [|split; [|split; [|split; [|split]]]]]].
  - pose proof (mining_loop_test_on_run dev header fuel h) as E.
    cbv zeta in E. rewrite E. cbn [snd]. fold params.
    eexists. rewrite <- !app_assoc. split; [reflexivity|].
    rewrite count_app, polling_loop_leaves_target. reflexivity.
  - apply T.
  - apply T.
  - intros E. apply (f_equal (fun l => nth 7 l 0)) in E. cbv in E.
    discriminate E.
  - pose proof (mining_loop_real_on_run dev header fuel h) as E.
    cbv zeta in E. rewrite E. cbn [snd]. fold params.
    eexists. rewrite <- !app_assoc. split; [reflexivity|].
    rewrite count_app, polling_loop_leaves_target. reflexivity.
  - apply R.
  - apply R.
  - intros E. apply (f_equal (fun l => nth 1 l 0)) in E. cbv in E.
    discriminate E.
Qed.

(** ** Scenarios *)

(** No status bit ever set: the test-mode loop times out in its 1001st
    pass, and 1000 passes are not enough to see it end. *)
Example sdk_timeout_scenario :
  fst (Sdk.polling_loop silent_device 10 1000 (Z.to_nat 1001) 0 []) = Some TimedOut
  /\ fst (Sdk.polling_loop silent_device 10 1000 (Z.to_nat 1000) 0 []) = None
  /\ count (is_write_to 0x43C00000)
           (snd (Sdk.polling_loop silent_device 10 1000 (Z.to_nat 1001) 0 []))
     = 2%nat.
Proof. vm_compute. repeat split. Qed.

(** The found bit appears after 1000 polling delays: the 1001st pass,
    with counter value 1000, still reports the golden nonce. *)
Example sdk_late_found_scenario :
  fst (Sdk.polling_loop (late_device 1000) 10 1000 (Z.to_nat 1001) 0 [])
  = Some (GoldenNonceFound 0xCAFE)
  /\ count (is_sleep_of 100000)
           (snd (Sdk.polling_loop (late_device 1000) 10 1000 (Z.to_nat 1001) 0 []))
     = 1000%nat.
Proof. vm_compute. repeat split. Qed.

(** Status words that read 2: bit 0 of the found word is clear, the
    not-found word is not 0, so the first pass reports exhaustion; the
    snapshot before it treats the found word as set and loads the golden
    nonce for display. *)
Example sdk_exhausted_scenario :
  Sdk.polling_loop exhausted_device 10 1000 1 0 []
  = (Some RangeExhausted,
     [EvWrite 0x43C00010 1; EvSleep 1000; EvWrite 0x43C00010 0;
      EvRead 0x43C0000C 2; EvRead 0x43C00000 2; EvRead 0x43C00004 2;
      EvRead 0x43C00008 2;
      EvRead 0x43C00000 2; EvRead 0x43C00004 2;
      EvWrite 0x43C00000 1; EvSleep 1000; EvWrite 0x43C00000 0]).
Proof. reflexivity. Qed.

(** The whole test program when the first status word is 3: found wins
    over exhausted. *)
Example test_program_found_wins_scenario :
  MinerTest.main (fun _ _ => 3) 1 []
  = (Some (GoldenNonceFound 3),
     bank_writes 0x43C00000 0x100 MinerTest.mid
     ++ bank_writes 0x43C00000 0x200 MinerTest.res
     ++ bank_writes 0x43C00000 0x300 MinerTest.tgt
     ++ reset_pulse 0x43C00000
     ++ [EvWrite 0x43C00004 1; EvRead 0x43C00008 3; EvRead 0x43C0000C 3]).
Proof. reflexivity. Qed.

(** * Further properties of the two programs *)

(** ** Header translation *)

(** X1. The parameters [process_block_header] leaves depend on the
    header's nonce and on the low three bytes of its difficulty bits
    only: version, previous-block hash, Merkle root, timestamp and the
    exponent byte of [bits] do not matter, and neither does what the
    parameter block held before the call. *)
Theorem process_block_header_reads_nonce_and_mantissa_only
    (h1 h2 : Sdk.bitcoin_block_header_t) (p1 p2 : Sdk.mining_params_t) :
  length (Sdk.mid_state p1) = 8%nat -> length (Sdk.residual_data p1) = 3%nat ->
  length (Sdk.target p1) = 8%nat ->
  length (Sdk.mid_state p2) = 8%nat -> length (Sdk.residual_data p2) = 3%nat ->
  length (Sdk.target p2) = 8%nat ->
  Sdk.nonce h1 = Sdk.nonce h2 ->
  Sdk.bits h1 mod 2 ^ 24 = Sdk.bits h2 mod 2 ^ 24 ->
  Sdk.process_block_header h1 p1 = Sdk.process_block_header h2 p2.
Proof.
  destruct p1 as [m1 r1 t1], p2 as [m2 r2 t2].
  cbn [Sdk.mid_state Sdk.residual_data Sdk.target].
  intros Hm1 Hr1 Ht1 Hm2 Hr2 Ht2 Hn Hb.
  explode m1. explode r1. explode t1. explode m2. explode r2. explode t2.
  unfold Sdk.process_block_header.
  cbn [Sdk.mid_state Sdk.residual_data Sdk.target Sdk.fill store Z.to_nat].
  rewrite Hn.
  change 0xFFFFFF with (Z.ones 24).
  rewrite !Z.land_ones by lia. rewrite Hb. reflexivity.
Qed.

Lemma process_block_header_reads_nonce_and_mantissa_only_witness :
  Sdk.process_block_header test_header Sdk.params_uninit
  = Sdk.process_block_header other_header stale_params.
Proof.
  apply process_block_header_reads_nonce_and_mantissa_only; reflexivity.
Defined.

(** X2. For every header the mid-state [process_block_header] leaves is
    the fixed sequence [0x12345678 .. 0x1234567F] (the additions do not
    wrap); target word 0 is below [2^24]; and when the header's nonce is a
    32-bit word, so is every word of the three arrays. *)
Theorem process_block_header_words
    (header : Sdk.bitcoin_block_header_t) (params0 : Sdk.mining_params_t) :
  length (Sdk.mid_state params0) = 8%nat ->
  length (Sdk.residual_data params0) = 3%nat ->
  length (Sdk.target params0) = 8%nat ->
  is_u32 (Sdk.nonce header) ->
  let params := Sdk.process_block_header header params0 in
  Sdk.mid_state params
  = [0x12345678; 0x12345679; 0x1234567A; 0x1234567B;
     0x1234567C; 0x1234567D; 0x1234567E; 0x1234567F]
  /\ 0 <= nth 0 (Sdk.target params) 0 < 2 ^ 24
  /\ Forall is_u32
            (Sdk.mid_state params ++ Sdk.residual_data params ++ Sdk.target params).
Proof.
  destruct params0 as [m r t].
  cbn [Sdk.mid_state Sdk.residual_data Sdk.target].
  intros Hm Hr Ht Hn. explode m. explode r. explode t.
  cbv zeta.
  match goal with
  | |- context [Sdk.process_block_header header ?p] =>
      set (params := Sdk.process_block_header header p)
  end.
  assert (Em : Sdk.mid_state params
               = [0x12345678; 0x12345679; 0x1234567A; 0x1234567B;
                  0x1234567C; 0x1234567D; 0x1234567E; 0x1234567F])
    by reflexivity.
  assert (Er : Sdk.residual_data params
               = [Sdk.nonce header; 0x80000000; 0x00000140]) by reflexivity.
  assert (Et : Sdk.target params
               = [Z.land (Sdk.bits header) 0xFFFFFF;
                  0xFFFFFFFF; 0xFFFFFFFF; 0xFFFFFFFF; 0xFFFFFFFF;
                  0xFFFFFFFF; 0xFFFFFFFF; 0xFFFFFFFF]) by reflexivity.
  rewrite Em, Er, Et. clearbody params.
  assert (Hb : 0 <= Z.land (Sdk.bits header) 0xFFFFFF < 2 ^ 24).
  { change 0xFFFFFF with (Z.ones 24). rewrite Z.land_ones by lia.
    apply Z.mod_pos_bound. lia. }
  split; [reflexivity|]. split; [exact Hb|].
  unfold is_u32 in *. cbn [app].
  repeat (apply Forall_cons; [lia|]). apply Forall_nil.
Qed.

Lemma process_block_header_words_witness :
  Sdk.mid_state (Sdk.process_block_header test_header stale_params)
  = [0x12345678; 0x12345679; 0x1234567A; 0x1234567B;
     0x1234567C; 0x1234567D; 0x1234567E; 0x1234567F].
Proof.
  apply (process_block_header_words test_header stale_params);
    try reflexivity.
  unfold is_u32. simpl. lia.
Defined.

(** ** Found flag and status snapshot *)

Lemma print_mining_status_run dev h :
  let h1 := h ++ [EvWrite 0x43C00010 1; EvSleep 1000; EvWrite 0x43C00010 0] in
  let c := wrap32 (dev h1 0x43C0000C) in
  let h2 := h1 ++ [EvRead 0x43C0000C c] in
  let f := wrap32 (dev h2 0x43C00000) in
  let h3 := h2 ++ [EvRead 0x43C00000 f] in
  let nf := wrap32 (dev h3 0x43C00004) in
  let h4 := h3 ++ [EvRead 0x43C00004 nf] in
  snd (Sdk.print_mining_status dev h)
  = [EvWrite 0x43C00010 1; EvSleep 1000; EvWrite 0x43C00010 0;
     EvRead 0x43C0000C c; EvRead 0x43C00000 f; EvRead 0x43C00004 nf]
    ++ (if f =? 0 then [] else [EvRead 0x43C00008 (wrap32 (dev h4 0x43C00008))]).
Proof.
  cbv zeta. unfold Sdk.print_mining_status.
  rewrite bind_fst_snd, get_current_nonce_run. cbn [fst snd].
  set (h1 := h ++ [EvWrite 0x43C00010 1; EvSleep 1000; EvWrite 0x43C00010 0]).
  set (c := wrap32 (dev h1 0x43C0000C)).
  replace (h ++ [EvWrite 0x43C00010 1; EvSleep 1000; EvWrite 0x43C00010 0;
                 EvRead 0x43C0000C c])
    with (h1 ++ [EvRead 0x43C0000C c])
    by (unfold h1; rewrite <- app_assoc; reflexivity).
  generalize (h1 ++ [EvRead 0x43C0000C c]). intros h2.
  unfold Sdk.get_golden_nonce, Sdk.read_register.
  change (wrap32 (Sdk.MINER_BASE_ADDR + Sdk.STATUS_FOUND)) with 0x43C00000.
  change (wrap32 (Sdk.MINER_BASE_ADDR + Sdk.STATUS_NOT_FOUND)) with 0x43C00004.
  change (wrap32 (Sdk.MINER_BASE_ADDR + Sdk.STATUS_GOLDEN_NONCE)) with 0x43C00008.
  set (f := wrap32 (dev h2 0x43C00000)).
  set (nf := wrap32 (dev (h2 ++ [EvRead 0x43C00000 f]) 0x43C00004)).
  cbv [bind Xil_In32 ret]. cbn [app]. fold f. fold nf.
  destruct (f =? 0); cbn [negb]; cbv beta iota; reflexivity.
Qed.

(** X3. [check_found] returns bit 0 of the word it loads from the found
    register, so 0 or 1 whatever the other 31 bits hold, while the status
    snapshot treats the found word as a whole: it loads the golden-nonce
    register exactly when that word is not 0. *)
Theorem check_found_is_bit0_snapshot_is_nonzero (dev : device) (h : trace) :
  (let f := wrap32 (dev h 0x43C00000) in
   Sdk.check_found dev h = (f mod 2, [EvRead 0x43C00000 f]))
  /\ (fst (Sdk.check_found dev h) = 0 \/ fst (Sdk.check_found dev h) = 1)
  /\ (let h1 := h ++ [EvWrite 0x43C00010 1; EvSleep 1000; EvWrite 0x43C00010 0] in
      let c := wrap32 (dev h1 0x43C0000C) in
      let f := wrap32 (dev (h1 ++ [EvRead 0x43C0000C c]) 0x43C00000) in
      count (is_read_from 0x43C00008) (snd (Sdk.print_mining_status dev h))
      = if f =? 0 then 0%nat else 1%nat).
Proof.
  assert (E : Sdk.check_found dev h
              = (wrap32 (dev h 0x43C00000) mod 2,
                 [EvRead 0x43C00000 (wrap32 (dev h 0x43C00000))])).
  { unfold Sdk.check_found, Sdk.read_register.
    change (wrap32 (Sdk.MINER_BASE_ADDR + Sdk.STATUS_FOUND)) with 0x43C00000.
    cbv [bind Xil_In32 ret]. cbn [app].
    change 0x1 with (Z.ones 1). rewrite Z.land_ones by lia. reflexivity. }
  split; [exact E|]. split.
  - rewrite E. cbn [fst].
    pose proof (Z.mod_pos_bound (wrap32 (dev h 0x43C00000)) 2 ltac:(lia)). lia.
  - cbv zeta. pose proof (print_mining_status_run dev h) as R. cbv zeta in R.
    rewrite R. clear R. rewrite count_app.
    destruct (_ =? 0); reflexivity.
Qed.

Lemma last_write_none a t :
  (forall e, In e t -> is_write_to a e = false) -> last_write a t = None.
Proof.
  induction t as [|e t IH]; intros H; simpl.
  - reflexivity.
  - rewrite IH by (intros e' He'; apply H; right; exact He').
    specialize (H e (or_introl eq_refl)).
    destruct e as [addr v|addr v|u]; simpl in *; try reflexivity.
    rewrite H. reflexivity.
Qed.

Lemma last_write_filtered (p : event -> bool) a t :
  (forall e, p e = true -> is_write_to a e = false) ->
  forallb p t = true -> last_write a t = None.
Proof.
  intros Hp Ht. apply last_write_none. intros e He.
  apply Hp. rewrite forallb_forall in Ht. apply Ht, He.
Qed.

Lemma status_writes_request_only a e :
  a <> 0x43C00010 ->
  sdk_status_access 0x43C00000 e = true -> is_write_to a e = false.
Proof.
  intros Ha. destruct e as [addr v|addr v|u]; simpl; try reflexivity.
  intros H. apply Z.eqb_eq in H. subst addr. apply Z.eqb_neq. congruence.
Qed.

(** X4. A status snapshot stores to the current-nonce request control
    only, twice, and leaves it at 0: the level of every other register is
    what it was before the snapshot. *)
Theorem status_snapshot_leaves_controls (dev : device) (h : trace) (a : Z) :
  a <> 0x43C00010 ->
  last_write a (h ++ snd (Sdk.print_mining_status dev h)) = last_write a h
  /\ last_write 0x43C00010 (h ++ snd (Sdk.print_mining_status dev h)) = Some 0
  /\ write_addrs (snd (Sdk.print_mining_status dev h)) = [0x43C00010; 0x43C00010].
Proof.
  intros Ha. split; [|split].
  - rewrite last_write_app.
    rewrite (last_write_filtered (sdk_status_access 0x43C00000) a).
    + reflexivity.
    + intros e. apply status_writes_request_only, Ha.
    + apply print_mining_status_emits.
  - pose proof (print_mining_status_run dev h) as R. cbv zeta in R.
    rewrite R. clear R. rewrite !last_write_app.
    destruct (_ =? 0); reflexivity.
  - pose proof (print_mining_status_run dev h) as R. cbv zeta in R.
    rewrite R. clear R.
    destruct (_ =? 0); reflexivity.
Qed.

Lemma status_snapshot_leaves_controls_witness :
  last_write 0x43C00000
    ([EvWrite 0x43C00000 1] ++ snd (Sdk.print_mining_status eager_device
                                      [EvWrite 0x43C00000 1]))
  = Some 1.
Proof.
  destruct (status_snapshot_leaves_controls eager_device [EvWrite 0x43C00000 1]
              0x43C00000 ltac:(discriminate)) as (E & _).
  rewrite E. reflexivity.
Defined.

(** ** The register file after loading *)

(** X5. After [write_block_header] the last value stored to word [i] of
    each bank is word [i] of the array given for that bank, whatever was
    stored there before, and the control registers are as they were. *)
Theorem load_job_registers_hold_the_job (mid res tgt : list Z) (h : trace) :
  length mid = 8%nat -> length res = 3%nat -> length tgt = 8%nat ->
  let t := h ++ snd (MinerTest.write_block_header mid res tgt h) in
  (forall i, (i < 8)%nat ->
             last_write (0x43C00100 + 4 * Z.of_nat i) t = Some (nth i mid 0))
  /\ (forall i, (i < 3)%nat ->
                last_write (0x43C00200 + 4 * Z.of_nat i) t = Some (nth i res 0))
  /\ (forall i, (i < 8)%nat ->
                last_write (0x43C00300 + 4 * Z.of_nat i) t = Some (nth i tgt 0))
  /\ (forall a, 0x43C00000 <= a < 0x43C00100 -> last_write a t = last_write a h).
Proof.
  intros Hm Hr Ht t. subst t. explode mid. explode res. explode tgt.
  split; [|split; [|split]].
  - intros i Hi. rewrite last_write_app.
    do 8 (destruct i as [|i]; [reflexivity|]). lia.
  - intros i Hi. rewrite last_write_app.
    do 3 (destruct i as [|i]; [reflexivity|]). lia.
  - intros i Hi. rewrite last_write_app.
    do 8 (destruct i as [|i]; [reflexivity|]). lia.
  - intros a Ha. rewrite last_write_app.
    rewrite (last_write_filtered
               (fun e => match e with
                         | EvWrite addr _ => 0x43C00100 <=? addr
                         | _ => true
                         end) a).
    + reflexivity.
    + intros [addr v|addr v|u]; simpl; try reflexivity.
      intros H. apply Z.leb_le in H. apply Z.eqb_neq. lia.
    + reflexivity.
Qed.

Lemma load_job_registers_hold_the_job_witness :
  last_write 0x43C0011C
    ([EvWrite 0x43C0011C 7]
     ++ snd (MinerTest.write_block_header MinerTest.mid MinerTest.res
               MinerTest.tgt [EvWrite 0x43C0011C 7]))
  = Some 0x5be0cd19.
Proof.
  destruct (load_job_registers_hold_the_job
              MinerTest.mid MinerTest.res MinerTest.tgt [EvWrite 0x43C0011C 7]
              eq_refl eq_refl eq_refl) as (M & _).
  exact (M 7%nat ltac:(lia)).
Defined.

(** ** A whole SDK session *)

Lemma poll_writes_reset_and_request_only a e :
  a <> 0x43C00000 -> a <> 0x43C00010 ->
  sdk_poll_access 0x43C00000 e = true -> is_write_to a e = false.
Proof.
  intros H0 H1. destruct e as [addr v|addr v|u]; simpl; try reflexivity.
  intros H. apply Z.eqb_neq.
  apply orb_true_iff in H as [H|H]; apply Z.eqb_eq in H; congruence.
Qed.

(** A register that the set-up stored to, other than reset and request,
    keeps that value through the polling loop. *)
Lemma last_write_through_poll dev period cap fuel iteration a h setup v :
  a <> 0x43C00000 -> a <> 0x43C00010 ->
  last_write a setup = Some v ->
  last_write a (h ++ setup
                  ++ snd (Sdk.polling_loop dev period cap fuel iteration
                            (h ++ setup))) = Some v.
Proof.
  intros H0 H1 Hs. rewrite !last_write_app.
  rewrite (last_write_filtered (sdk_poll_access 0x43C00000) a).
  - rewrite Hs. reflexivity.
  - intros e. apply poll_writes_reset_and_request_only; assumption.
  - apply polling_loop_emits.
Qed.

(** X6. In a test-mode session the start control is stored to once,
    after all 19 parameter words, and the polling loop that follows stores
    to the reset and request controls only.  So from the start pulse to
    the end of the session, however it ends, the target registers hold the
    fixed easy target, the midstate registers [0x12345678 + i] and the
    residual registers [{nonce, 0x80000000, 0x140}]. *)
Theorem sdk_job_is_loaded_then_started_once
    (dev : device) (header : Sdk.bitcoin_block_header_t) (fuel : nat)
    (h : trace) :
  let evs := snd (Sdk.mining_loop_test_on dev header fuel h) in
  (exists loaded poll,
      evs = loaded ++ [EvWrite 0x43C00004 1] ++ poll
      /\ length loaded = 19%nat
      /\ distinct (write_addrs loaded) = true
      /\ forallb (SpecMap.allowed 0x43C00000) loaded = true
      /\ forallb (sdk_poll_access 0x43C00000) poll = true)
  /\ count (is_write_to 0x43C00004) evs = 1%nat
  /\ (forall i, (i < 8)%nat ->
                last_write (0x43C00300 + 4 * Z.of_nat i) (h ++ evs)
                = Some (nth i Sdk.easy_target 0))
  /\ (forall i, (i < 8)%nat ->
                last_write (0x43C00100 + 4 * Z.of_nat i) (h ++ evs)
                = Some (0x12345678 + Z.of_nat i))
  /\ (forall i, (i < 3)%nat ->
                last_write (0x43C00200 + 4 * Z.of_nat i) (h ++ evs)
                = Some (nth i [Sdk.nonce header; 0x80000000; 0x00000140] 0)).
Proof.
  cbv zeta.
  pose proof (mining_loop_test_on_run dev header fuel h) as R. cbv zeta in R.
  rewrite R. clear R. cbn [snd].
  match goal with
  | |- context [Sdk.polling_loop dev 10 1000 fuel 0 (h ++ ?s)] => set (setup := s)
  end.
  set (poll := snd (Sdk.polling_loop dev 10 1000 fuel 0 (h ++ setup))).
  assert (Hpoll : forallb (sdk_poll_access 0x43C00000) poll = true)
    by apply polling_loop_emits.
  split; [|split; [|split; [|split]]].
  - eexists (firstn 19 setup), poll. split; [|split; [|split; [|split]]].
    + unfold setup. cbn [firstn bank_writes map seq length app Sdk.easy_target
                           Sdk.mid_state Sdk.residual_data].
      reflexivity.
    + reflexivity.
    + reflexivity.
    + reflexivity.
    + exact Hpoll.
  - rewrite count_app.
    assert (N0 : 0x43C00004 <> 0x43C00000) by discriminate.
    assert (N1 : 0x43C00004 <> 0x43C00010) by discriminate.
    rewrite (count_none (is_write_to 0x43C00004) _ poll
               (fun e => poll_writes_reset_and_request_only 0x43C00004 e N0 N1)
               Hpoll).
    reflexivity.
  - intros i Hi. apply last_write_through_poll; [lia | lia |].
    do 8 (destruct i as [|i]; [reflexivity|]). lia.
  - intros i Hi. apply last_write_through_poll; [lia | lia |].
    do 8 (destruct i as [|i]; [reflexivity|]). lia.
  - intros i Hi. apply last_write_through_poll; [lia | lia |].
    do 3 (destruct i as [|i]; [reflexivity|]). lia.
Qed.

Lemma sdk_job_is_loaded_then_started_once_witness :
  last_write 0x43C0031C
    (snd (Sdk.mining_loop_test_on silent_device test_header 3 []))
  = Some 0x000000FF.
Proof.
  destruct (sdk_job_is_loaded_then_started_once silent_device test_header 3 [])
    as (_ & _ & T & _).
  exact (T 7%nat ltac:(lia)).
Defined.

(** ** Control levels when a session has ended *)

Lemma snapshot_or_nothing dev (c : bool) h :
  snd ((if c then Sdk.print_mining_status dev else ret tt) h)
  = if c then snd (Sdk.print_mining_status dev h) else [].
Proof. destruct c; reflexivity. Qed.

Lemma snapshot_request_level dev h :
  last_write 0x43C00010 (snd (Sdk.print_mining_status dev h)) = Some 0.
Proof.
  pose proof (print_mining_status_run dev h) as R. cbv zeta in R.
  rewrite R. rewrite last_write_app. destruct (_ =? 0); reflexivity.
Qed.

(** Whatever a polling loop emits leaves the request control at 0, if it
    stores to it at all. *)
Lemma polling_loop_request_low dev period cap fuel :
  forall iteration h,
    last_write 0x43C00010 (snd (Sdk.polling_loop dev period cap fuel iteration h))
    = None
    \/ last_write 0x43C00010
         (snd (Sdk.polling_loop dev period cap fuel iteration h)) = Some 0.
Proof.
  induction fuel as [|fuel IH]; intros iteration h.
  - left. reflexivity.
  - first_pass dev period cap iteration h.
    all: assert (P : last_write 0x43C00010 pre = None
                     \/ last_write 0x43C00010 pre = Some 0)
      by (unfold pre; rewrite snapshot_or_nothing;
          destruct (Z.rem iteration period =? 0);
          [right; apply snapshot_request_level | left; reflexivity]).
    all: rewrite ?last_write_app.
    2:{ match goal with
        | |- context [Sdk.polling_loop dev period cap fuel ?i ?hh] =>
            destruct (IH i hh) as [Q|Q]; rewrite Q
        end.
        - exact P.
        - right. reflexivity. }
    all: exact P.
Qed.

Lemma polling_loop_first_pass_request dev period cap fuel h :
  last_write 0x43C00010 (snd (Sdk.polling_loop dev period cap (S fuel) 0 h))
  = Some 0.
Proof.
  assert (Z0 : Z.rem 0 period = 0) by (destruct period; reflexivity).
  first_pass dev period cap 0 h.
  all: assert (P : last_write 0x43C00010 pre = Some 0)
    by (unfold pre; rewrite snapshot_or_nothing, Z0;
        apply snapshot_request_level).
  all: rewrite ?last_write_app.
  2:{ match goal with
      | |- context [Sdk.polling_loop dev period cap fuel ?i ?hh] =>
          destruct (polling_loop_request_low dev period cap fuel i hh) as [Q|Q];
          rewrite Q
      end.
      - exact P.
      - reflexivity. }
  all: exact P.
Qed.

Lemma session_levels dev period cap fuel h setup o evs :
  Sdk.polling_loop dev period cap fuel 0 (h ++ setup) = (Some o, evs) ->
  last_write 0x43C00004 setup = Some 1 ->
  last_write 0x43C00000 (h ++ setup ++ evs) = Some 0
  /\ last_write 0x43C00004 (h ++ setup ++ evs) = Some 1
  /\ last_write 0x43C00010 (h ++ setup ++ evs) = Some 0.
Proof.
  intros E Hs. split; [|split].
  - destruct (polling_loop_stops_once dev period cap _ _ _ _ _ E) as (pre & -> & _).
    rewrite !last_write_app. reflexivity.
  - replace evs with (snd (Sdk.polling_loop dev period cap fuel 0 (h ++ setup)))
      by (rewrite E; reflexivity).
    apply last_write_through_poll; [discriminate | discriminate | exact Hs].
  - destruct fuel as [|fuel]; [discriminate E|].
    rewrite !last_write_app.
    replace evs
      with (snd (Sdk.polling_loop dev period cap (S fuel) 0 (h ++ setup)))
      by (rewrite E; reflexivity).
    rewrite polling_loop_first_pass_request. reflexivity.
Qed.

(** X7. When [main] has run a session to its end, in whichever mode and
    with whichever outcome, the reset control and the current-nonce
    request control were last stored 0 and the start control was last
    stored 1: the two pulses are released, start is never released. *)
Theorem sdk_controls_after_a_session
    (dev : device) (choice now : Z) (fuel : nat) (h : trace)
    (o : JobOutcome) (evs : trace) :
  Sdk.main dev choice now fuel h = (Some o, evs) ->
  last_write 0x43C00000 (h ++ evs) = Some 0
  /\ last_write 0x43C00004 (h ++ evs) = Some 1
  /\ last_write 0x43C00010 (h ++ evs) = Some 0.
Proof.
  unfold Sdk.main. rewrite bind_fst_snd, stop_mining_trace. cbn [fst snd].
  assert (T : forall hd rest,
             Sdk.mining_loop_test_on dev hd fuel (h ++ reset_pulse 0x43C00000)
             = (Some o, rest) ->
             last_write 0x43C00000 (h ++ reset_pulse 0x43C00000 ++ rest) = Some 0
             /\ last_write 0x43C00004 (h ++ reset_pulse 0x43C00000 ++ rest)
                = Some 1
             /\ last_write 0x43C00010 (h ++ reset_pulse 0x43C00000 ++ rest)
                = Some 0).
  { intros hd rest E.
    pose proof (mining_loop_test_on_run dev hd fuel (h ++ reset_pulse 0x43C00000))
      as R. cbv zeta in R. rewrite R in E. clear R.
    match type of E with
    | context [Sdk.polling_loop dev 10 1000 fuel 0 (_ ++ ?s)] => set (setup := s) in *
    end.
    destruct (Sdk.polling_loop dev 10 1000 fuel 0
                ((h ++ reset_pulse 0x43C00000) ++ setup)) as [r pe] eqn:P.
    cbn [fst snd] in E. injection E as -> <-.
    rewrite app_assoc.
    apply (session_levels dev 10 1000 fuel _ setup o pe P). reflexivity. }
  assert (R : forall hd rest,
             Sdk.mining_loop_real_on dev hd fuel (h ++ reset_pulse 0x43C00000)
             = (Some o, rest) ->
             last_write 0x43C00000 (h ++ reset_pulse 0x43C00000 ++ rest) = Some 0
             /\ last_write 0x43C00004 (h ++ reset_pulse 0x43C00000 ++ rest)
                = Some 1
             /\ last_write 0x43C00010 (h ++ reset_pulse 0x43C00000 ++ rest)
                = Some 0).
  { intros hd rest E.
    pose proof (mining_loop_real_on_run dev hd fuel (h ++ reset_pulse 0x43C00000))
      as R. cbv zeta in R. rewrite R in E. clear R.
    match type of E with
    | context [Sdk.polling_loop dev 100 10000 fuel 0 (_ ++ ?s)] => set (setup := s) in *
    end.
    destruct (Sdk.polling_loop dev 100 10000 fuel 0
                ((h ++ reset_pulse 0x43C00000) ++ setup)) as [r pe] eqn:P.
    cbn [fst snd] in E. injection E as -> <-.
    rewrite app_assoc.
    apply (session_levels dev 100 10000 fuel _ setup o pe P). reflexivity. }
  destruct ((if choice =? 1 then Sdk.mining_loop_test dev now fuel
             else if choice =? 2 then Sdk.mining_loop_real dev now fuel
             else Sdk.mining_loop_test dev now fuel)
              (h ++ reset_pulse 0x43C00000)) as [r rest] eqn:Hrun.
  cbn [fst snd]. intros E. injection E as -> <-.
  destruct (choice =? 1); [exact (T _ _ Hrun)|].
  destruct (choice =? 2); [exact (R _ _ Hrun) | exact (T _ _ Hrun)].
Qed.

Lemma sdk_controls_after_a_session_witness :
  last_write 0x43C00004 (snd (Sdk.main eager_device 1 0 1 [])) = Some 1
  /\ last_write 0x43C00010 (snd (Sdk.main eager_device 1 0 1 [])) = Some 0.
Proof.
  destruct (sdk_controls_after_a_session eager_device 1 0 1 []
              (GoldenNonceFound 1) (snd (Sdk.main eager_device 1 0 1 []))
              eq_refl) as (_ & S & Q).
  split; [exact S | exact Q].
Defined.

(** ** Snapshots and time *)

Ltac slept_eval :=
  repeat match goal with
         | |- context [slept (?x :: ?l)] =>
             let n := eval cbv in (slept (x :: l)) in
             change (slept (x :: l)) with n
         | |- context [slept (reset_pulse ?a)] =>
             let n := eval cbv in (slept (reset_pulse a)) in
             change (slept (reset_pulse a)) with n
         end.

Lemma slept_app t1 t2 : slept (t1 ++ t2) = slept t1 + slept t2.
Proof.
  induction t1 as [|[a v|a v|u] t1 IH]; simpl; rewrite ?IH; lia.
Qed.

Lemma snapshot_requests dev (c : bool) h :
  count (is_write_of 0x43C00010 1)
        (snd ((if c then Sdk.print_mining_status dev else ret tt) h))
  = if c then 1%nat else 0%nat.
Proof.
  rewrite snapshot_or_nothing. destruct c; [|reflexivity].
  pose proof (print_mining_status_run dev h) as R. cbv zeta in R.
  rewrite R. rewrite count_app. destruct (_ =? 0); reflexivity.
Qed.

Lemma snapshot_slept dev (c : bool) h :
  slept (snd ((if c then Sdk.print_mining_status dev else ret tt) h))
  = if c then 1000 else 0.
Proof.
  rewrite snapshot_or_nothing. destruct c; [|reflexivity].
  pose proof (print_mining_status_run dev h) as R. cbv zeta in R.
  rewrite R. rewrite slept_app. destruct (_ =? 0); reflexivity.
Qed.

Lemma polling_loop_snapshots dev period cap :
  cap < 2 ^ 31 - 1 ->
  forall fuel iteration h o evs,
    0 <= iteration <= cap ->
    Sdk.polling_loop dev period cap fuel iteration h = (Some o, evs) ->
    count (is_write_of 0x43C00010 1) evs = due period iteration (passes_of o evs).
Proof.
  intros Hcap. unfold passes_of.
  induction fuel as [|fuel IH]; intros iteration h o evs Hit.
  - simpl. unfold ret. discriminate.
  - first_pass dev period cap iteration h; intros H.
    + injection H as <- <-.
      rewrite !count_app, (count_none _ _ _ status_no_delay Hpre).
      unfold pre. rewrite snapshot_requests. count_eval.
      cbn [Nat.add due]. destruct (Z.rem iteration period =? 0); reflexivity.
    + destruct (Sdk.polling_loop dev period cap fuel _ _) as [r e2] eqn:E.
      simpl in H. injection H as -> <-.
      rewrite int32_small in * by lia.
      assert (Hle : iteration + 1 <= cap).
      { rewrite Z.gtb_ltb in Hover. apply Z.ltb_ge in Hover. exact Hover. }
      specialize (IH _ _ _ _ (conj (ltac:(lia) : 0 <= iteration + 1) Hle) E).
      rewrite !count_app, (count_none _ _ _ status_no_delay Hpre), IH.
      unfold pre. rewrite snapshot_requests. count_eval.
      cbn [Nat.add due]. destruct (Z.rem iteration period =? 0); reflexivity.
    + injection H as <- <-.
      rewrite !count_app, (count_none _ _ _ status_no_delay Hpre).
      unfold pre. rewrite snapshot_requests. count_eval.
      cbn [Nat.add due]. destruct (Z.rem iteration period =? 0); reflexivity.
    + injection H as <- <-.
      rewrite !count_app, (count_none _ _ _ status_no_delay Hpre).
      unfold pre. rewrite snapshot_requests. count_eval.
      cbn [Nat.add due]. destruct (Z.rem iteration period =? 0); reflexivity.
Qed.

Lemma polling_loop_slept dev period cap :
  forall fuel iteration h o evs,
    Sdk.polling_loop dev period cap fuel iteration h = (Some o, evs) ->
    slept evs
    = 100000 * Z.of_nat (count (is_sleep_of 100000) evs)
      + 1000 * Z.of_nat (count (is_write_of 0x43C00010 1) evs)
      + 1000.
Proof.
  induction fuel as [|fuel IH]; intros iteration h o evs.
  - simpl. unfold ret. discriminate.
  - first_pass dev period cap iteration h; intros H.
    + injection H as <- <-.
      rewrite !slept_app, !count_app, (count_none _ _ _ status_no_delay Hpre).
      unfold pre. rewrite snapshot_requests, snapshot_slept.
      count_eval. slept_eval.
      destruct (Z.rem iteration period =? 0); reflexivity.
    + destruct (Sdk.polling_loop dev period cap fuel _ _) as [r e2] eqn:E.
      simpl in H. injection H as -> <-.
      specialize (IH _ _ _ _ E).
      rewrite !slept_app, !count_app, (count_none _ _ _ status_no_delay Hpre), IH.
      unfold pre. rewrite snapshot_requests, snapshot_slept.
      count_eval. slept_eval.
      destruct (Z.rem iteration period =? 0); lia.
    + injection H as <- <-.
      rewrite !slept_app, !count_app, (count_none _ _ _ status_no_delay Hpre).
      unfold pre. rewrite snapshot_requests, snapshot_slept.
      count_eval. slept_eval.
      destruct (Z.rem iteration period =? 0); reflexivity.
    + injection H as <- <-.
      rewrite !slept_app, !count_app, (count_none _ _ _ status_no_delay Hpre).
      unfold pre. rewrite snapshot_requests, snapshot_slept.
      count_eval. slept_eval.
      destruct (Z.rem iteration period =? 0); reflexivity.
Qed.

(** X8. In an SDK polling run that has ended, the number of status
    snapshots (current-nonce requests) is the number of passes whose
    counter value was a multiple of the period, the first pass having
    counter value 0: one snapshot in the first pass and one every
    [period] passes after it. *)
Theorem snapshots_follow_the_counter
    (dev : device) (period cap : Z) (fuel : nat) (h : trace)
    (o : JobOutcome) (evs : trace) :
  0 <= cap < 2 ^ 31 - 1 ->
  Sdk.polling_loop dev period cap fuel 0 h = (Some o, evs) ->
  count (is_write_of 0x43C00010 1) evs = due period 0 (passes_of o evs)
  /\ (1 <= count (is_write_of 0x43C00010 1) evs)%nat.
Proof.
  intros Hcap E.
  pose proof (polling_loop_snapshots dev period cap ltac:(lia) fuel 0 h o evs
                ltac:(lia) E) as Hs.
  split; [exact Hs|]. rewrite Hs.
  assert (P : exists n, passes_of o evs = S n).
  { unfold passes_of. destruct o.
    - exists (count (is_sleep_of 100000) evs). lia.
    - exists (count (is_sleep_of 100000) evs). lia.
    - pose proof (polling_loop_delays dev period cap ltac:(lia) fuel 0 h
                    TimedOut evs ltac:(lia) E) as [D _].
      exists (Nat.pred (count (is_sleep_of 100000) evs)). lia. }
  destruct P as [n ->]. cbn [due].
  replace (Z.rem 0 period =? 0) with true
    by (destruct period; reflexivity).
  lia.
Qed.

Lemma snapshots_follow_the_counter_witness :
  count (is_write_of 0x43C00010 1)
        (snd (Sdk.polling_loop eager_device 10 1000 1 0 [])) = 1%nat.
Proof.
  destruct (snapshots_follow_the_counter eager_device 10 1000 1 []
              (GoldenNonceFound 1)
              (snd (Sdk.polling_loop eager_device 10 1000 1 0 []))
              ltac:(lia) eq_refl) as [E _].
  rewrite E. reflexivity.
Defined.

(** X9. The time an SDK polling run that has ended asked to sleep is
    100 ms per polling delay, 1 ms per status snapshot and 1 ms for the
    final reset pulse. *)
Theorem polling_run_sleep_time
    (dev : device) (period cap : Z) (fuel : nat) (iteration : Z) (h : trace)
    (o : JobOutcome) (evs : trace) :
  Sdk.polling_loop dev period cap fuel iteration h = (Some o, evs) ->
  slept evs
  = 100000 * Z.of_nat (count (is_sleep_of 100000) evs)
    + 1000 * Z.of_nat (count (is_write_of 0x43C00010 1) evs)
    + 1000.
Proof. apply polling_loop_slept. Qed.

Lemma polling_run_sleep_time_witness :
  slept (snd (Sdk.polling_loop eager_device 10 1000 1 0 [])) = 2000.
Proof.
  rewrite (polling_run_sleep_time eager_device 10 1000 1 0 []
             (GoldenNonceFound 1)
             (snd (Sdk.polling_loop eager_device 10 1000 1 0 [])) eq_refl).
  reflexivity.
Defined.

(** X10. A test-mode run that times out has gone through 1001 polling
    delays and 101 status snapshots and has asked to sleep 100,202,000
    microseconds; a real-mode run that times out, 10001 delays, 101
    snapshots and 1,000,202,000 microseconds. *)
Theorem timed_out_run_totals
    (dev : device) (real : bool) (fuel : nat) (h : trace) (evs : trace) :
  Sdk.polling_loop dev (if real then 100 else 10) (if real then 10000 else 1000)
                   fuel 0 h = (Some TimedOut, evs) ->
  Z.of_nat (count (is_sleep_of 100000) evs) = (if real then 10001 else 1001)
  /\ count (is_write_of 0x43C00010 1) evs = 101%nat
  /\ slept evs = (if real then 1000202000 else 100202000).
Proof.
  intros E.
  assert (Hcap : (if real then 10000 else 1000) < 2 ^ 31 - 1)
    by (destruct real; lia).
  assert (Hpos : 0 <= 0 <= (if real then 10000 else 1000))
    by (destruct real; lia).
  pose proof (polling_loop_delays dev _ _ Hcap fuel 0 h TimedOut evs Hpos E)
    as [D _].
  pose proof (polling_loop_snapshots dev _ _ Hcap fuel 0 h TimedOut evs Hpos E)
    as S.
  pose proof (polling_loop_slept dev _ _ fuel 0 h TimedOut evs E) as T.
  unfold passes_of in S. rewrite Nat.add_0_r in S.
  assert (N : count (is_sleep_of 100000) evs
              = Z.to_nat (if real then 10001 else 1001))
    by (destruct real; lia).
  rewrite N in S.
  assert (S' : count (is_write_of 0x43C00010 1) evs = 101%nat).
  { rewrite S. destruct real; vm_compute; reflexivity. }
  rewrite S' in T. rewrite T, N.
  destruct real; repeat split; lia.
Qed.

Lemma timed_out_run_totals_witness :
  slept (snd (Sdk.polling_loop silent_device 10 1000 (Z.to_nat 1001) 0 []))
  = 100202000.
Proof.
  assert (E : Sdk.polling_loop silent_device 10 1000 (Z.to_nat 1001) 0 []
              = (Some TimedOut,
                 snd (Sdk.polling_loop silent_device 10 1000 (Z.to_nat 1001) 0 [])))
    by (vm_compute; reflexivity).
  destruct (timed_out_run_totals silent_device false (Z.to_nat 1001) [] _ E)
    as (_ & _ & T).
  exact T.
Defined.

(** ** The test program: accounting, composition, liveness *)

Lemma write_addrs_app t1 t2 :
  write_addrs (t1 ++ t2) = write_addrs t1 ++ write_addrs t2.
Proof.
  induction t1 as [|[a v|a v|u] t1 IH]; simpl; rewrite ?IH; reflexivity.
Qed.

Ltac test_pass dev h :=
  rewrite main_poll_step;
  let E := fresh "E" in
  pose proof (main_poll_body_spec dev h) as E;
  cbv zeta in E; rewrite E; clear E;
  set (s := wrap32 (dev h 0x43C00008)) in *;
  set (g := wrap32 (dev (h ++ [EvRead 0x43C00008 s]) 0x43C0000C));
  set (c := wrap32 (dev (h ++ [EvRead 0x43C00008 s]) 0x43C00014));
  destruct (Z.land s 1 =? 0) eqn:Hbit0; cbn [negb];
  [ destruct (Z.land s 2 =? 0) eqn:Hbit1; cbn [negb] | ];
  cbn [fst snd].

Lemma main_poll_accounting dev :
  forall fuel h o evs,
    MinerTest.main_poll dev fuel h = (Some o, evs) ->
    write_addrs evs = []
    /\ count (is_read_from 0x43C00008) evs
       = S (count (is_sleep_of 10000) evs)
    /\ count (is_read_from 0x43C00014) evs = count (is_sleep_of 10000) evs
    /\ count (is_read_from 0x43C0000C) evs
       = match o with GoldenNonceFound _ => 1%nat | _ => 0%nat end
    /\ slept evs = 10000 * Z.of_nat (count (is_sleep_of 10000) evs).
Proof.
  induction fuel as [|fuel IH]; intros h o evs.
  - simpl. unfold ret. discriminate.
  - test_pass dev h; intros H.
    + destruct (MinerTest.main_poll dev fuel _) as [r e2] eqn:E.
      cbn [fst snd] in H. injection H as -> <-.
      destruct (IH _ _ _ E) as (W & S1 & C1 & G1 & T1).
      match goal with
      | |- context [?a :: ?b :: ?d :: e2] =>
          change (a :: b :: d :: e2) with ([a; b; d] ++ e2)
      end.
      rewrite write_addrs_app, slept_app, !count_app, W, S1, C1, G1, T1.
      count_eval. slept_eval. cbn [write_addrs app].
      repeat split; lia.
    + injection H as <- <-. repeat split.
    + injection H as <- <-. repeat split.
Qed.

(** X11. A run of the test program's polling loop that has ended made no
    store at all (it loads the current nonce without the request
    handshake), loaded the status word once per pass and the current
    nonce once per completed pass, loaded the golden nonce once if it
    reports one and never otherwise, and asked to sleep 10 ms per
    completed pass. *)
Theorem test_poll_run_accounting
    (dev : device) (fuel : nat) (h : trace) (o : JobOutcome) (evs : trace) :
  MinerTest.main_poll dev fuel h = (Some o, evs) ->
  write_addrs evs = []
  /\ count (is_read_from 0x43C00008) evs = S (count (is_sleep_of 10000) evs)
  /\ count (is_read_from 0x43C00014) evs = count (is_sleep_of 10000) evs
  /\ count (is_read_from 0x43C0000C) evs
     = match o with GoldenNonceFound _ => 1%nat | _ => 0%nat end
  /\ slept evs = 10000 * Z.of_nat (count (is_sleep_of 10000) evs).
Proof. apply main_poll_accounting. Qed.

Lemma test_poll_run_accounting_witness :
  count (is_read_from 0x43C00008)
        (snd (MinerTest.main_poll (late_status_device 3) 5 [])) = 4%nat.
Proof.
  destruct (test_poll_run_accounting (late_status_device 3) 5 [] RangeExhausted
              (snd (MinerTest.main_poll (late_status_device 3) 5 [])) eq_refl)
    as (_ & S1 & _).
  rewrite S1. reflexivity.
Defined.

Lemma test_poll_no_store a e :
  test_poll_access 0x43C00000 e = true -> is_write_to a e = false.
Proof. destruct e as [addr v|addr v|u]; simpl; [discriminate | reflexivity..]. Qed.

(** X12. The test program stores the 19 words of its fixed job, then
    pulses reset, then stores 1 to start, and stores nothing after that:
    whatever the device answers and however long the loop runs, the reset
    control ends at 0, the start control at 1, and every bank register
    holds the word of the fixed job that was stored to it. *)
Theorem test_program_loads_resets_starts (dev : device) (fuel : nat) (h : trace) :
  let evs := snd (MinerTest.main dev fuel h) in
  (exists poll,
      evs = bank_writes 0x43C00000 0x100 MinerTest.mid
            ++ bank_writes 0x43C00000 0x200 MinerTest.res
            ++ bank_writes 0x43C00000 0x300 MinerTest.tgt
            ++ reset_pulse 0x43C00000
            ++ [EvWrite 0x43C00004 1]
            ++ poll
      /\ write_addrs poll = [])
  /\ last_write 0x43C00000 (h ++ evs) = Some 0
  /\ last_write 0x43C00004 (h ++ evs) = Some 1
  /\ (forall i, (i < 8)%nat ->
                last_write (0x43C00100 + 4 * Z.of_nat i) (h ++ evs)
                = Some (nth i MinerTest.mid 0))
  /\ (forall i, (i < 3)%nat ->
                last_write (0x43C00200 + 4 * Z.of_nat i) (h ++ evs)
                = Some (nth i MinerTest.res 0))
  /\ (forall i, (i < 8)%nat ->
                last_write (0x43C00300 + 4 * Z.of_nat i) (h ++ evs)
                = Some (nth i MinerTest.tgt 0)).
Proof.
  cbv zeta. unfold MinerTest.main.
  rewrite bind_fst_snd.
  set (load := snd (MinerTest.write_block_header MinerTest.mid MinerTest.res
                      MinerTest.tgt h)).
  rewrite bind_fst_snd.
  change (snd (MinerTest.main_reset (h ++ load))) with (reset_pulse 0x43C00000).
  rewrite bind_fst_snd.
  change (snd (MinerTest.write_reg MinerTest.REG_START 1
                 ((h ++ load) ++ reset_pulse 0x43C00000)))
    with [EvWrite 0x43C00004 1].
  match goal with
  | |- context [MinerTest.main_poll dev fuel ?hh] =>
      set (poll := snd (MinerTest.main_poll dev fuel hh))
  end.
  cbn [fst snd].
  assert (Hp : forallb (test_poll_access 0x43C00000) poll = true)
    by apply main_poll_emits.
  assert (Hn : forall a, last_write a poll = None).
  { intros a. apply (last_write_filtered (test_poll_access 0x43C00000)).
    - intros e. apply test_poll_no_store.
    - exact Hp. }
  split; [|split; [|split; [|split; [|split]]]].
  - exists poll. split; [reflexivity|].
    clear Hn. induction poll as [|[a v|a v|u] poll IH]; simpl in *.
    + reflexivity.
    + discriminate Hp.
    + apply IH. apply andb_true_iff in Hp. apply Hp.
    + apply IH. exact Hp.
  - rewrite !last_write_app, Hn. reflexivity.
  - rewrite !last_write_app, Hn. reflexivity.
  - intros i Hi. rewrite !last_write_app, Hn.
    do 8 (destruct i as [|i]; [reflexivity|]). lia.
  - intros i Hi. rewrite !last_write_app, Hn.
    do 3 (destruct i as [|i]; [reflexivity|]). lia.
  - intros i Hi. rewrite !last_write_app, Hn.
    do 8 (destruct i as [|i]; [reflexivity|]). lia.
Qed.

Lemma test_program_loads_resets_starts_witness :
  last_write 0x43C00300 (snd (MinerTest.main silent_device 4 []))
  = Some 0x0000ffff.
Proof.
  destruct (test_program_loads_resets_starts silent_device 4 [])
    as (_ & _ & _ & _ & _ & T).
  exact (T 0%nat ltac:(lia)).
Defined.

Lemma land_3_split s : Z.land s 1 = 0 -> Z.land s 2 = 0 -> Z.land s 3 = 0.
Proof.
  intros H1 H2. change 3 with (Z.lor 1 2).
  rewrite Z.land_lor_distr_r, H1, H2. reflexivity.
Qed.

Lemma main_poll_returns_when_status_set dev n :
  (forall h', (n <= count (is_sleep_of 10000) h')%nat ->
              Z.land (wrap32 (dev h' 0x43C00008)) 3 <> 0) ->
  forall fuel h,
    (count (is_sleep_of 10000) h <= n)%nat ->
    (n < count (is_sleep_of 10000) h + fuel)%nat ->
    exists o evs,
      MinerTest.main_poll dev fuel h = (Some o, evs)
      /\ (count (is_sleep_of 10000) (h ++ evs) <= n)%nat.
Proof.
  intros Hdev. induction fuel as [|fuel IH]; intros h Hle Hlt.
  - lia.
  - test_pass dev h.
    + assert (Hc : (count (is_sleep_of 10000) h < n)%nat).
      { destruct (Nat.lt_ge_cases (count (is_sleep_of 10000) h) n) as [L|G];
          [exact L|].
        exfalso. apply (Hdev h G). fold s.
        apply land_3_split; apply Z.eqb_eq; assumption. }
      destruct (IH (h ++ [EvRead 0x43C00008 s; EvRead 0x43C00014 c;
                          EvSleep 10000])) as (o & evs & E & B).
      * rewrite count_app. count_eval. lia.
      * rewrite count_app. count_eval. lia.
      * rewrite E. cbn [fst snd]. exists o. eexists. split; [reflexivity|].
        rewrite <- app_assoc in B. exact B.
    + eexists. eexists. split; [reflexivity|].
      rewrite count_app. count_eval. lia.
    + eexists. eexists. split; [reflexivity|].
      rewrite count_app. count_eval. lia.
Qed.

(** X13. If the device shows bit 0 or bit 1 in every status word it is
    asked for once [n] polling delays have gone by, the polling loop of
    the test program returns an outcome within [n + 1] passes, after at
    most [n] delays. *)
Theorem test_poll_returns_once_status_is_set
    (dev : device) (n fuel : nat) (h : trace) :
  (forall h', (n <= count (is_sleep_of 10000) h')%nat ->
              Z.land (wrap32 (dev h' 0x43C00008)) 3 <> 0) ->
  count (is_sleep_of 10000) h = 0%nat ->
  (n < fuel)%nat ->
  exists o evs,
    MinerTest.main_poll dev fuel h = (Some o, evs)
    /\ (count (is_sleep_of 10000) evs <= n)%nat.
Proof.
  intros Hdev H0 Hf.
  destruct (main_poll_returns_when_status_set dev n Hdev fuel h) as (o & evs & E & B);
    [lia | lia |].
  exists o, evs. split; [exact E|].
  rewrite count_app, H0 in B. exact B.
Qed.

Lemma test_poll_returns_once_status_is_set_witness :
  exists o evs,
    MinerTest.main_poll (late_status_device 3) 4 [] = (Some o, evs)
    /\ (count (is_sleep_of 10000) evs <= 3)%nat.
Proof.
  apply (test_poll_returns_once_status_is_set (late_status_device 3) 3 4 []).
  - intros h' H. unfold late_status_device.
    change (0x43C00008 =? 0x43C00008) with true. cbv beta iota.
    apply Nat.leb_le in H. rewrite H. discriminate.
  - reflexivity.
  - lia.
Defined.

(** ** A nonce that appears before the cap *)

Lemma polling_loop_finds dev period cap n :
  cap < 2 ^ 31 - 1 ->
  Z.of_nat n <= cap ->
  (forall h', wrap32 (dev h' 0x43C00004) = 0) ->
  (forall h', (count (is_sleep_of 100000) h' < n)%nat ->
              Z.land (wrap32 (dev h' 0x43C00000)) 1 = 0) ->
  (forall h', (n <= count (is_sleep_of 100000) h')%nat ->
              Z.land (wrap32 (dev h' 0x43C00000)) 1 <> 0) ->
  forall fuel iteration h,
    Z.of_nat (count (is_sleep_of 100000) h) = iteration ->
    iteration <= Z.of_nat n ->
    (n < count (is_sleep_of 100000) h + fuel)%nat ->
    exists g evs,
      Sdk.polling_loop dev period cap fuel iteration h
      = (Some (GoldenNonceFound g), evs)
      /\ count (is_sleep_of 100000) (h ++ evs) = n.
Proof.
  intros Hcap Hn Hnf Hclear Hset.
  induction fuel as [|fuel IH]; intros iteration h Hsync Hit Hfuel.
  - lia.
  - first_pass dev period cap iteration h.
    all: assert (Hc : count (is_sleep_of 100000) (h ++ pre)
                      = count (is_sleep_of 100000) h)
      by (rewrite count_app, (count_none _ _ _ status_no_delay Hpre); lia).
    1-3: assert (Hlt : (count (is_sleep_of 100000) h < n)%nat)
      by (destruct (Nat.lt_ge_cases (count (is_sleep_of 100000) h) n) as [L|G];
          [exact L|];
          exfalso; apply (Hset (h ++ pre)); [rewrite Hc; exact G|];
          fold f; apply Z.eqb_eq; exact Hfound).
    + exfalso. rewrite int32_small in Hover by lia.
      apply Z.gtb_lt in Hover. lia.
    + rewrite int32_small by lia.
      destruct (IH (iteration + 1)
                   (h ++ pre ++ [EvRead 0x43C00000 f; EvRead 0x43C00004 nf;
                                 EvSleep 100000]))
        as (g' & evs & E & B).
      * rewrite !count_app, (count_none _ _ _ status_no_delay Hpre).
        count_eval. lia.
      * lia.
      * rewrite !count_app, (count_none _ _ _ status_no_delay Hpre).
        count_eval. lia.
      * rewrite E. cbn [fst snd]. exists g'. eexists. split; [reflexivity|].
        rewrite <- !app_assoc in B. rewrite <- !app_assoc. exact B.
    + exfalso. apply Z.eqb_neq in Hnotfound. apply Hnotfound. apply Hnf.
    + assert (Hge : (n <= count (is_sleep_of 100000) h)%nat).
      { destruct (Nat.lt_ge_cases (count (is_sleep_of 100000) h) n) as [L|G];
          [|exact G].
        exfalso. apply Z.eqb_neq in Hfound. apply Hfound.
        apply (Hclear (h ++ pre)). rewrite Hc. exact L. }
      exists g. eexists. split; [reflexivity|].
      rewrite !count_app, (count_none _ _ _ status_no_delay Hpre).
      count_eval. lia.
Qed.

(** X14. If the not-found register always reads 0 and bit 0 of the found
    register is clear until [n] polling delays have gone by and set from
    then on, with [n] at most the cap, an SDK polling loop reports
    GoldenNonceFound after exactly [n] delays: a nonce that appears in
    the pass with counter value [cap] is still reported, not timed out. *)
Theorem sdk_reports_a_nonce_found_by_the_cap
    (dev : device) (period cap : Z) (n fuel : nat) (h : trace) :
  0 <= cap < 2 ^ 31 - 1 ->
  Z.of_nat n <= cap ->
  (forall h', wrap32 (dev h' 0x43C00004) = 0) ->
  (forall h', (count (is_sleep_of 100000) h' < n)%nat ->
              Z.land (wrap32 (dev h' 0x43C00000)) 1 = 0) ->
  (forall h', (n <= count (is_sleep_of 100000) h')%nat ->
              Z.land (wrap32 (dev h' 0x43C00000)) 1 <> 0) ->
  count (is_sleep_of 100000) h = 0%nat ->
  (n < fuel)%nat ->
  exists g evs,
    Sdk.polling_loop dev period cap fuel 0 h = (Some (GoldenNonceFound g), evs)
    /\ count (is_sleep_of 100000) evs = n.
Proof.
  intros Hcap Hn Hnf Hclear Hset H0 Hfuel.
  destruct (polling_loop_finds dev period cap n ltac:(lia) Hn Hnf Hclear Hset
              fuel 0 h) as (g & evs & E & B); [lia | lia | lia |].
  exists g, evs. split; [exact E|].
  rewrite count_app, H0 in B. exact B.
Qed.

Lemma sdk_reports_a_nonce_found_by_the_cap_witness :
  exists g evs,
    Sdk.polling_loop (late_device 1000) 10 1000 1001 0 []
    = (Some (GoldenNonceFound g), evs)
    /\ count (is_sleep_of 100000) evs = 1000%nat.
Proof.
  apply (sdk_reports_a_nonce_found_by_the_cap (late_device 1000) 10 1000
           1000 1001 []).
  - lia.
  - lia.
  - intros h'. reflexivity.
  - intros h' H. unfold late_device.
    change (0x43C00000 =? 0x43C00000) with true. cbv beta iota.
    apply Nat.leb_gt in H. rewrite H. reflexivity.
  - intros h' H. unfold late_device.
    change (0x43C00000 =? 0x43C00000) with true. cbv beta iota.
    apply Nat.leb_le in H. rewrite H. discriminate.
  - reflexivity.
  - lia.
Defined.
